(** * A shallow embedding of playground-wgpu (main.rs, texture.rs)

    The wgpu 0.5 objects the program touches are modelled as plain values:
    every call that creates a GPU object is recorded in the device's call
    log, and the handle it returns is the position of that call in the log.
    Command buffers are lists of recorded commands; the queue keeps the list
    of submitted command buffers.  Rust [u32] values are [Z]s, and Rust
    floating-point literals are kept as rationals (they only appear as
    inert configuration values).  A Rust panic is the [Panicked]
    outcome, carrying its message and the state reached when it happens. *)

From Stdlib Require Import ZArith List String QArith Lia.
Import ListNotations.
Open Scope Z_scope.

(** ** Rust scalars and outcomes *)

Definition u32_modulus : Z := 2 ^ 32.

(** [u32] multiplication with the wrap-around of a release build. *)
Definition u32_mul (a b : Z) : Z := (a * b) mod u32_modulus.

Definition is_u32 (z : Z) : Prop := 0 <= z < u32_modulus.

(** Cargo's build profiles: an arithmetic overflow panics in a [Debug]
    build (the profile of [cargo build] and [cargo run]) and wraps around
    in a [Release] build. *)
Inductive Profile := Debug | Release.

(** [a * b] on [u32] operands in profile [p]: [None] when it panics. *)
Definition u32_mul_in (p : Profile) (a b : Z) : option Z :=
  match p with
  | Release => Some (u32_mul a b)
  | Debug => if a * b <? u32_modulus then Some (a * b) else None
  end.

Inductive Outcome (S A : Type) : Type :=
| Returned (a : A) (s : S)
| Panicked (msg : string) (s : S).
Arguments Returned {S A} a s.
Arguments Panicked {S A} msg s.

Inductive result (A E : Type) : Type :=
| Ok (a : A)
| Err (e : E).
Arguments Ok {A E} a.
Arguments Err {A E} e.

Definition option_unwrap_msg : string :=
  "called `Option::unwrap()` on a `None` value".
Definition result_unwrap_msg : string :=
  "called `Result::unwrap()` on an `Err` value".
Definition mul_overflow_msg : string := "attempt to multiply with overflow".

(** ** wgpu 0.5 descriptors *)

(** Bit flags, with the values of wgpu-types 0.5. *)
Definition TextureUsage_COPY_SRC : Z := 1.
Definition TextureUsage_COPY_DST : Z := 2.
Definition TextureUsage_SAMPLED : Z := 4.
Definition TextureUsage_OUTPUT_ATTACHMENT : Z := 16.
Definition BufferUsage_COPY_SRC : Z := 4.
Definition BufferUsage_INDEX : Z := 16.
Definition BufferUsage_VERTEX : Z := 32.
Definition ShaderStage_FRAGMENT : Z := 2.
Definition ColorWrite_ALL : Z := 15.

Inductive TextureFormat := Bgra8UnormSrgb | Rgba8UnormSrgb.
Inductive PresentMode := Immediate | Mailbox | Fifo.
Inductive TextureDimension := D1 | D2 | D3.
Inductive TextureViewDimension := ViewD2.
Inductive TextureComponentType := CTFloat | CTSint | CTUint.
Inductive AddressMode := ClampToEdge | Repeat | MirrorRepeat.
Inductive FilterMode := Nearest | Linear.
Inductive CompareFunction :=
  Never | Less | Equal | LessEqual | Greater | NotEqual | GreaterEqual | Always.
Inductive FrontFace := Ccw | Cw.
Inductive CullMode := CullNone | Front | Back.
Inductive PrimitiveTopology :=
  PointList | LineList | LineStrip | TriangleList | TriangleStrip.
Inductive IndexFormat := Uint16 | Uint32.
Inductive InputStepMode := StepVertex | StepInstance.
Inductive VertexFormat := Float2 | Float3 | Float4.
Inductive BlendFactor := One | Zero | SrcAlpha | OneMinusSrcAlpha.
Inductive BlendOperation := Add | Subtract | Max | Min.
Inductive LoadOp := Clear | Load.
Inductive StoreOp := Store.

Module PhysicalSize.
Record t := mk { width : Z; height : Z }.
End PhysicalSize.

Module SwapChainDescriptor.
Record t := mk {
  usage : Z;
  format : TextureFormat;
  width : Z;
  height : Z;
  present_mode : PresentMode
}.
End SwapChainDescriptor.

Module Extent3d.
Record t := mk { width : Z; height : Z; depth : Z }.
End Extent3d.

Module TextureDescriptor.
Record t := mk {
  size : Extent3d.t;
  array_layer_count : Z;
  mip_level_count : Z;
  sample_count : Z;
  dimension : TextureDimension;
  format : TextureFormat;
  usage : Z;
  label : option string
}.
End TextureDescriptor.

Module BufferCopyView.
Record t := mk {
  buffer : nat;
  offset : Z;
  bytes_per_row : Z;
  rows_per_image : Z
}.
End BufferCopyView.

Module TextureCopyView.
Record t := mk {
  texture : nat;
  mip_level : Z;
  array_layer : Z;
  origin : Z * Z * Z
}.
End TextureCopyView.

Definition Origin3d_ZERO : Z * Z * Z := (0, 0, 0).

Module SamplerDescriptor.
Record t := mk {
  address_mode_u : AddressMode;
  address_mode_v : AddressMode;
  address_mode_w : AddressMode;
  mag_filter : FilterMode;
  min_filter : FilterMode;
  mipmap_filter : FilterMode;
  lod_min_clamp : Q;
  lod_max_clamp : Q;
  compare : CompareFunction
}.
End SamplerDescriptor.

Module Color.
Record t := mk { r : Q; g : Q; b : Q; a : Q }.
End Color.

(** Commands recorded by a command encoder or a render pass on it. *)
Inductive Command :=
| CopyBufferToTexture (src : BufferCopyView.t) (dst : TextureCopyView.t)
    (size : Extent3d.t)
| BeginRenderPass (attachment : nat) (load_op : LoadOp) (store_op : StoreOp)
    (clear_color : Color.t)
| SetPipeline (pipeline : nat)
| SetVertexBuffer (slot : Z) (buffer : nat) (offset size : Z)
| SetIndexBuffer (buffer : nat) (offset size : Z)
| SetBindGroup (index : Z) (bind_group : nat) (offsets : list Z)
| DrawIndexed (indices : Z * Z) (base_vertex : Z) (instances : Z * Z)
| EndRenderPass.

Module CommandEncoder.
Record t := mk { label : option string; commands : list Command }.
End CommandEncoder.

Module CommandBuffer.
Record t := mk { label : option string; commands : list Command }.
End CommandBuffer.

Definition record (encoder : CommandEncoder.t) (c : Command)
  : CommandEncoder.t :=
  CommandEncoder.mk (CommandEncoder.label encoder)
    (CommandEncoder.commands encoder ++ [c]).

Definition copy_buffer_to_texture (encoder : CommandEncoder.t)
  (src : BufferCopyView.t) (dst : TextureCopyView.t) (size : Extent3d.t)
  : CommandEncoder.t :=
  record encoder (CopyBufferToTexture src dst size).

Definition finish (encoder : CommandEncoder.t) : CommandBuffer.t :=
  CommandBuffer.mk (CommandEncoder.label encoder)
    (CommandEncoder.commands encoder).

(** ** Rust type layout, for [mem::size_of] *)

(** The Rust types the vertex layout mentions: [f32], arrays and
    [#[repr(C)]] structs. *)
#[local] Set Warnings "-register-all".
Inductive RustTy :=
| F32
| Array (elem : RustTy) (n : Z)
| ReprC (fields : list RustTy).

Definition align_up (off align : Z) : Z := ((off + align - 1) / align) * align.

Fixpoint align_of (t : RustTy) : Z :=
  match t with
  | F32 => 4
  | Array elem _ => align_of elem
  | ReprC fields => fold_left (fun m f => Z.max m (align_of f)) fields 1
  end.

(** [size_of] of a [#[repr(C)]] struct: each field is placed at the next
    offset aligned for it, and the total is rounded up to the struct's
    alignment. *)
Fixpoint size_of (t : RustTy) : Z :=
  match t with
  | F32 => 4
  | Array elem n => n * size_of elem
  | ReprC fields =>
      align_up
        (fold_left (fun off f => align_up off (align_of f) + size_of f)
           fields 0)
        (align_of t)
  end.

(** [struct Vertex { position: [f32; 3], tex_coords: [f32; 2] }] *)
Definition Vertex_fields : list RustTy := [Array F32 3; Array F32 2].
Definition Vertex_ty : RustTy := ReprC Vertex_fields.

Module Vertex.
Record t := mk { position : Q * Q * Q; tex_coords : Q * Q }.
End Vertex.

Module VertexAttributeDescriptor.
Record t := mk { offset : Z; shader_location : Z; format : VertexFormat }.
End VertexAttributeDescriptor.

Module VertexBufferDescriptor.
Record t := mk {
  stride : Z;
  step_mode : InputStepMode;
  attributes : list VertexAttributeDescriptor.t
}.
End VertexBufferDescriptor.

(** [Vertex::descriptor] *)
Definition Vertex_descriptor : VertexBufferDescriptor.t :=
  {| VertexBufferDescriptor.stride := size_of Vertex_ty;
     VertexBufferDescriptor.step_mode := StepVertex;
     VertexBufferDescriptor.attributes :=
       [ {| VertexAttributeDescriptor.offset := 0;
            VertexAttributeDescriptor.shader_location := 0;
            VertexAttributeDescriptor.format := Float3 |};
         {| VertexAttributeDescriptor.offset := size_of (Array F32 3);
            VertexAttributeDescriptor.shader_location := 1;
            VertexAttributeDescriptor.format := Float2 |} ] |}.

Definition VERTICES : list Vertex.t :=
  [ Vertex.mk (-0.0868241, 0.49240386, 0.0) (0.4131759, 0.00759614);
    Vertex.mk (-0.49513406, 0.06958647, 0.0) (0.0048659444, 0.43041354);
    Vertex.mk (-0.21918549, -0.44939706, 0.0) (0.28081453, 0.949397057);
    Vertex.mk (0.35966998, -0.3473291, 0.0) (0.85967, 0.84732911);
    Vertex.mk (0.44147372, 0.2347359, 0.0) (0.9414737, 0.2652641) ]%Q.

Definition INDICES : list Z := [0; 1; 4; 1; 2; 4; 2; 3; 4].

(** ** Pipeline descriptors *)

Module BlendDescriptor.
Record t := mk {
  src_factor : BlendFactor;
  dst_factor : BlendFactor;
  operation : BlendOperation
}.
End BlendDescriptor.

Definition BlendDescriptor_REPLACE : BlendDescriptor.t :=
  BlendDescriptor.mk One Zero Add.

Module ColorStateDescriptor.
Record t := mk {
  format : TextureFormat;
  alpha_blend : BlendDescriptor.t;
  color_blend : BlendDescriptor.t;
  write_mask : Z
}.
End ColorStateDescriptor.

Module RasterizationStateDescriptor.
Record t := mk {
  front_face : FrontFace;
  cull_mode : CullMode;
  depth_bias : Z;
  depth_bias_slope_scale : Q;
  depth_bias_clamp : Q
}.
End RasterizationStateDescriptor.

Module ProgrammableStageDescriptor.
Record t := mk { module_ : nat; entry_point : string }.
End ProgrammableStageDescriptor.

Module VertexStateDescriptor.
Record t := mk {
  index_format : IndexFormat;
  vertex_buffers : list VertexBufferDescriptor.t
}.
End VertexStateDescriptor.

Module RenderPipelineDescriptor.
Record t := mk {
  layout : nat;
  vertex_stage : ProgrammableStageDescriptor.t;
  fragment_stage : option ProgrammableStageDescriptor.t;
  rasterization_state : option RasterizationStateDescriptor.t;
  color_states : list ColorStateDescriptor.t;
  primitive_topology : PrimitiveTopology;
  depth_stencil_state : option unit;
  vertex_state : VertexStateDescriptor.t;
  sample_count : Z;
  sample_mask : Z;
  alpha_to_coverage_enabled : bool
}.
End RenderPipelineDescriptor.

Inductive BindingType :=
| SampledTexture (multisampled : bool) (dimension : TextureViewDimension)
    (component_type : TextureComponentType)
| Sampler (comparison : bool).

Module BindGroupLayoutEntry.
Record t := mk { binding : Z; visibility : Z; ty : BindingType }.
End BindGroupLayoutEntry.

Inductive BindingResource :=
| TextureViewRes (view : nat)
| SamplerRes (sampler : nat).

Module Binding.
Record t := mk { binding : Z; resource : BindingResource }.
End Binding.

Inductive ShaderType := VertexShader | FragmentShader.

(** ** The device

    Contents handed to [create_buffer_with_data]: the raw bytes of an
    image, or the vertex and index arrays cast to bytes by [bytemuck]. *)
Inductive BufferData :=
| BufBytes (data : list Byte.byte)
| BufVertices (vs : list Vertex.t)
| BufIndices (is : list Z).

Inductive DeviceCall :=
| CreateSwapChain (surface : nat) (desc : SwapChainDescriptor.t)
| CreateTexture (desc : TextureDescriptor.t)
| CreateBufferWithData (data : BufferData) (usage : Z)
| CreateCommandEncoder (label : option string)
| CreateTextureView (texture : nat)
| CreateSampler (desc : SamplerDescriptor.t)
| CreateBindGroupLayout (entries : list BindGroupLayoutEntry.t)
    (label : option string)
| CreateBindGroup (layout : nat) (bindings : list Binding.t)
    (label : option string)
| CreateShaderModule (stage : ShaderType)
| CreatePipelineLayout (bind_group_layouts : list nat)
| CreateRenderPipeline (desc : RenderPipelineDescriptor.t).

Module Device.
Record t := mk { log : list DeviceCall }.
End Device.

(** Every device call returns a fresh handle: its position in the log. *)
Definition issue (device : Device.t) (c : DeviceCall) : nat * Device.t :=
  (List.length (Device.log device), Device.mk (Device.log device ++ [c])).

Definition create_texture (device : Device.t) (desc : TextureDescriptor.t)
  : nat * Device.t :=
  issue device (CreateTexture desc).

Definition create_buffer_with_data (device : Device.t) (data : BufferData)
  (usage : Z) : nat * Device.t :=
  issue device (CreateBufferWithData data usage).

Definition create_command_encoder (device : Device.t) (label : option string)
  : CommandEncoder.t * Device.t :=
  let (_, device) := issue device (CreateCommandEncoder label) in
  (CommandEncoder.mk label [], device).

Definition create_default_view (device : Device.t) (texture : nat)
  : nat * Device.t :=
  issue device (CreateTextureView texture).

Definition create_sampler (device : Device.t) (desc : SamplerDescriptor.t)
  : nat * Device.t :=
  issue device (CreateSampler desc).

Module Queue.
Record t := mk { submitted : list CommandBuffer.t }.
End Queue.

Definition submit (queue : Queue.t) (cbs : list CommandBuffer.t) : Queue.t :=
  Queue.mk (Queue.submitted queue ++ cbs).

(** ** Decoded images (the [image] crate)

    A decoded image is one of the variants of [image::DynamicImage]; each
    holds an [ImageBuffer] of its pixel type: its dimensions and its raw
    samples. *)
Module ImageBuffer.
Record t := mk { width : Z; height : Z; raw : list Byte.byte }.
End ImageBuffer.

Inductive DynamicImage :=
| ImageLuma8 (buf : ImageBuffer.t)
| ImageLumaA8 (buf : ImageBuffer.t)
| ImageRgb8 (buf : ImageBuffer.t)
| ImageRgba8 (buf : ImageBuffer.t)
| ImageBgr8 (buf : ImageBuffer.t)
| ImageBgra8 (buf : ImageBuffer.t)
| ImageLuma16 (buf : ImageBuffer.t)
| ImageLumaA16 (buf : ImageBuffer.t)
| ImageRgb16 (buf : ImageBuffer.t)
| ImageRgba16 (buf : ImageBuffer.t).

Definition image_buffer (img : DynamicImage) : ImageBuffer.t :=
  match img with
  | ImageLuma8 b | ImageLumaA8 b | ImageRgb8 b | ImageRgba8 b
  | ImageBgr8 b | ImageBgra8 b | ImageLuma16 b | ImageLumaA16 b
  | ImageRgb16 b | ImageRgba16 b => b
  end.

(** [DynamicImage::as_rgba8]: a view of the buffer only for the
    [ImageRgba8] variant, no conversion. *)
Definition as_rgba8 (img : DynamicImage) : option ImageBuffer.t :=
  match img with
  | ImageRgba8 b => Some b
  | _ => None
  end.

(** [GenericImageView::dimensions] *)
Definition dimensions (img : DynamicImage) : Z * Z :=
  (ImageBuffer.width (image_buffer img), ImageBuffer.height (image_buffer img)).

(** [ImageBuffer::into_raw] *)
Definition into_raw (b : ImageBuffer.t) : list Byte.byte := ImageBuffer.raw b.

(** An RGBA8 buffer as the [image] crate builds it: [u32] dimensions and
    four samples per pixel. *)
Definition rgba8_well_formed (b : ImageBuffer.t) : Prop :=
  is_u32 (ImageBuffer.width b) /\ is_u32 (ImageBuffer.height b) /\
  Z.of_nat (List.length (ImageBuffer.raw b)) =
    4 * ImageBuffer.width b * ImageBuffer.height b.

Inductive ImageError := DecodingError | UnsupportedError | LimitsError | IoError.

(** [failure::Error], built by [?] from the [image] crate's error. *)
Inductive Error := ImageDecodeError (e : ImageError).

(** ** texture.rs *)

Module Texture.
Record t := mk { texture : nat; view : nat; sampler : nat }.
End Texture.

Definition from_image_texture_descriptor (size : Extent3d.t)
  : TextureDescriptor.t :=
  {| TextureDescriptor.size := size;
     TextureDescriptor.array_layer_count := 1;
     TextureDescriptor.mip_level_count := 1;
     TextureDescriptor.sample_count := 1;
     TextureDescriptor.dimension := D2;
     TextureDescriptor.format := Rgba8UnormSrgb;
     TextureDescriptor.usage :=
       Z.lor TextureUsage_SAMPLED TextureUsage_COPY_DST;
     TextureDescriptor.label := Some "texture"%string |}.

Definition from_image_sampler_descriptor : SamplerDescriptor.t :=
  {| SamplerDescriptor.address_mode_u := ClampToEdge;
     SamplerDescriptor.address_mode_v := ClampToEdge;
     SamplerDescriptor.address_mode_w := ClampToEdge;
     SamplerDescriptor.mag_filter := Linear;
     SamplerDescriptor.min_filter := Nearest;
     SamplerDescriptor.mipmap_filter := Nearest;
     SamplerDescriptor.lod_min_clamp := (-100.0)%Q;
     SamplerDescriptor.lod_max_clamp := 100.0%Q;
     SamplerDescriptor.compare := Always |}.

(** [Texture::from_image], built in profile [p]. *)
Definition from_image_in (p : Profile) (device : Device.t) (img : DynamicImage)
  : Outcome Device.t (result (Texture.t * CommandBuffer.t) Error) :=
  match as_rgba8 img with
  | None => Panicked option_unwrap_msg device
  | Some rgba =>
      let dimensions := dimensions img in
      let size := Extent3d.mk (fst dimensions) (snd dimensions) 1 in
      let (texture, device) :=
        create_texture device (from_image_texture_descriptor size) in
      let (buffer, device) :=
        create_buffer_with_data device (BufBytes (into_raw rgba))
          BufferUsage_COPY_SRC in
      let (encoder, device) :=
        create_command_encoder device
          (Some "texture_buffer_copy_encoder"%string) in
      match u32_mul_in p 4 (fst dimensions) with
      | None => Panicked mul_overflow_msg device
      | Some bytes_per_row =>
          let encoder :=
            copy_buffer_to_texture encoder
              (BufferCopyView.mk buffer 0 bytes_per_row (snd dimensions))
              (TextureCopyView.mk texture 0 0 Origin3d_ZERO)
              size in
          let cmd_buffer := finish encoder in
          let (view, device) := create_default_view device texture in
          let (sampler, device) :=
            create_sampler device from_image_sampler_descriptor in
          Returned (Ok (Texture.mk texture view sampler, cmd_buffer)) device
      end
  end.

(** [Texture::from_image] in a release build, the one [from_bytes] and
    [State::new] are taken in; the two builds differ only for images
    whose width [W] has [4 * W >= 2^32]. *)
Definition from_image (device : Device.t) (img : DynamicImage)
  : Outcome Device.t (result (Texture.t * CommandBuffer.t) Error) :=
  from_image_in Release device img.

(** [Texture::from_bytes], over the [image] crate's decoder
    [image::load_from_memory], which is not part of this repository. *)
Definition from_bytes
  (load_from_memory : list Byte.byte -> result DynamicImage ImageError)
  (device : Device.t) (bytes : list Byte.byte)
  : Outcome Device.t (result (Texture.t * CommandBuffer.t) Error) :=
  match load_from_memory bytes with
  | Err e => Returned (Err (ImageDecodeError e)) device
  | Ok img => from_image device img
  end.

(** ** main.rs: surface and swap chain

    The surface's presentation engine decides, for the [n]-th acquisition
    attempt, whether an image becomes available before wgpu's deadline
    ([presentable n]); the surface counts the attempts made on it. *)
Module Surface.
Record t := mk { id : nat; presentable : nat -> bool; acquire_attempts : nat }.
End Surface.

Module SwapChain.
Record t := mk { id : nat; surface : nat; desc : SwapChainDescriptor.t }.
End SwapChain.

Definition create_swap_chain (device : Device.t) (surface : Surface.t)
  (desc : SwapChainDescriptor.t) : SwapChain.t * Device.t :=
  let (id, device) := issue device (CreateSwapChain (Surface.id surface) desc) in
  (SwapChain.mk id (Surface.id surface) desc, device).

(** [wgpu::TimeOut], the error of [SwapChain::get_next_texture]. *)
Inductive TimeOut := TimeOutErr.

(** The acquired image: its view (named by the attempt that acquired it)
    and its extent, the one of the swap chain's descriptor. *)
Module SwapChainOutput.
Record t := mk { view : nat; width : Z; height : Z }.
End SwapChainOutput.

(** [SwapChain::get_next_texture]: one acquisition attempt. *)
Definition get_next_texture (swap_chain : SwapChain.t) (surface : Surface.t)
  : result SwapChainOutput.t TimeOut * Surface.t :=
  let n := Surface.acquire_attempts surface in
  let surface :=
    Surface.mk (Surface.id surface) (Surface.presentable surface) (S n) in
  if Surface.presentable surface n then
    (Ok (SwapChainOutput.mk n
           (SwapChainDescriptor.width (SwapChain.desc swap_chain))
           (SwapChainDescriptor.height (SwapChain.desc swap_chain))),
     surface)
  else (Err TimeOutErr, surface).

Module RenderPipeline.
Record t := mk { id : nat; desc : RenderPipelineDescriptor.t }.
End RenderPipeline.

(** The bind group layout built in [State::new]. *)
Definition texture_bind_group_layout_entries : list BindGroupLayoutEntry.t :=
  [ BindGroupLayoutEntry.mk 0 ShaderStage_FRAGMENT
      (SampledTexture false ViewD2 CTUint);
    BindGroupLayoutEntry.mk 1 ShaderStage_FRAGMENT (Sampler false) ].

(** The [RenderPipelineDescriptor] literal of [State::new]; its color
    target format is [sc_desc.format]. *)
Definition render_pipeline_descriptor (layout vs_module fs_module : nat)
  (sc_format : TextureFormat) : RenderPipelineDescriptor.t :=
  {| RenderPipelineDescriptor.layout := layout;
     RenderPipelineDescriptor.vertex_stage :=
       ProgrammableStageDescriptor.mk vs_module "main";
     RenderPipelineDescriptor.fragment_stage :=
       Some (ProgrammableStageDescriptor.mk fs_module "main");
     RenderPipelineDescriptor.rasterization_state :=
       Some {| RasterizationStateDescriptor.front_face := Ccw;
               RasterizationStateDescriptor.cull_mode := Back;
               RasterizationStateDescriptor.depth_bias := 0;
               RasterizationStateDescriptor.depth_bias_slope_scale := 0.0%Q;
               RasterizationStateDescriptor.depth_bias_clamp := 0.0%Q |};
     RenderPipelineDescriptor.color_states :=
       [ {| ColorStateDescriptor.format := sc_format;
            ColorStateDescriptor.alpha_blend := BlendDescriptor_REPLACE;
            ColorStateDescriptor.color_blend := BlendDescriptor_REPLACE;
            ColorStateDescriptor.write_mask := ColorWrite_ALL |} ];
     RenderPipelineDescriptor.primitive_topology := TriangleList;
     RenderPipelineDescriptor.depth_stencil_state := None;
     RenderPipelineDescriptor.vertex_state :=
       {| VertexStateDescriptor.index_format := Uint16;
          VertexStateDescriptor.vertex_buffers := [Vertex_descriptor] |};
     RenderPipelineDescriptor.sample_count := 1;
     RenderPipelineDescriptor.sample_mask := u32_modulus - 1;
     RenderPipelineDescriptor.alpha_to_coverage_enabled := false |}.

Definition clear_color : Color.t := Color.mk 0.1 0.2 0.3 1.0.

(** ** main.rs: [struct State] and its methods *)
Module State.
Record t := mk {
  surface : Surface.t;
  adapter : nat;
  device : Device.t;
  queue : Queue.t;
  sc_desc : SwapChainDescriptor.t;
  swap_chain : SwapChain.t;
  size : PhysicalSize.t;
  render_pipeline : RenderPipeline.t;
  vertex_buffer : nat;
  index_buffer : nat;
  num_indices : Z;
  diffuse_texture : Texture.t;
  diffuse_bind_group : nat
}.

(** [State::new], once the adapter and the device have been negotiated
    ([adapter], [device], [queue]) and with the shaders compiled (their
    compilation is not modelled).  The embedded [happy-tree.png] is
    [diffuse_bytes], decoded by [load_from_memory].  The panics of
    [Adapter::request(..).unwrap()] (before the texture is loaded) and of
    the [glsl_to_spirv::compile] and [read_spirv] unwraps (after it) are
    outside this definition; of the panic at [from_bytes(..).unwrap()]
    only the message's prefix is modelled, not the [Debug] rendering of
    the error that follows it. *)
Definition new
  (load_from_memory : list Byte.byte -> result DynamicImage ImageError)
  (diffuse_bytes : list Byte.byte) (window_inner_size : PhysicalSize.t)
  (surface : Surface.t) (adapter : nat) (device : Device.t) (queue : Queue.t)
  : Outcome unit t :=
  let size := window_inner_size in
  let num_indices := Z.of_nat (List.length INDICES) in
  let sc_desc :=
    SwapChainDescriptor.mk TextureUsage_OUTPUT_ATTACHMENT Bgra8UnormSrgb
      (PhysicalSize.width size) (PhysicalSize.height size) Fifo in
  let (swap_chain, device) := create_swap_chain device surface sc_desc in
  match from_bytes load_from_memory device diffuse_bytes with
  | Panicked msg _ => Panicked msg tt
  | Returned (Err _) _ => Panicked result_unwrap_msg tt
  | Returned (Ok (diffuse_texture, cmd_buffer)) device =>
      let queue := submit queue [cmd_buffer] in
      let (texture_bind_group_layout, device) :=
        issue device
          (CreateBindGroupLayout texture_bind_group_layout_entries
             (Some "texture_bind_group_layout"%string)) in
      let (diffuse_bind_group, device) :=
        issue device
          (CreateBindGroup texture_bind_group_layout
             [ Binding.mk 0 (TextureViewRes (Texture.view diffuse_texture));
               Binding.mk 1 (SamplerRes (Texture.sampler diffuse_texture)) ]
             (Some "diffuse_bind_group"%string)) in
      let (vs_module, device) := issue device (CreateShaderModule VertexShader) in
      let (fs_module, device) :=
        issue device (CreateShaderModule FragmentShader) in
      let (render_pipeline_layout, device) :=
        issue device (CreatePipelineLayout [texture_bind_group_layout]) in
      let rp_desc :=
        render_pipeline_descriptor render_pipeline_layout vs_module fs_module
          (SwapChainDescriptor.format sc_desc) in
      let (render_pipeline, device) :=
        issue device (CreateRenderPipeline rp_desc) in
      let (vertex_buffer, device) :=
        create_buffer_with_data device (BufVertices VERTICES)
          BufferUsage_VERTEX in
      let (index_buffer, device) :=
        create_buffer_with_data device (BufIndices INDICES) BufferUsage_INDEX in
      Returned
        (mk surface adapter device queue sc_desc swap_chain size
           (RenderPipeline.mk render_pipeline rp_desc) vertex_buffer
           index_buffer num_indices diffuse_texture diffuse_bind_group)
        tt
  end.

(** [State::resize] *)
Definition resize (s : t) (new_size : PhysicalSize.t) : t :=
  let sc_desc :=
    SwapChainDescriptor.mk (SwapChainDescriptor.usage (sc_desc s))
      (SwapChainDescriptor.format (sc_desc s))
      (PhysicalSize.width new_size) (PhysicalSize.height new_size)
      (SwapChainDescriptor.present_mode (sc_desc s)) in
  let (swap_chain, device) := create_swap_chain (device s) (surface s) sc_desc in
  mk (surface s) (adapter s) device (queue s) sc_desc swap_chain new_size
    (render_pipeline s) (vertex_buffer s) (index_buffer s) (num_indices s)
    (diffuse_texture s) (diffuse_bind_group s).

(** [State::update] *)
Definition update (s : t) : t := s.

Definition timeout_msg : string := "Timeout getting texture: TimeOut".

(** [State::render]; the render pass ends when it goes out of scope. *)
Definition render (s : t) : Outcome t unit :=
  let (frame, surface) := get_next_texture (swap_chain s) (surface s) in
  let s :=
    mk surface (adapter s) (device s) (queue s) (sc_desc s) (swap_chain s)
      (size s) (render_pipeline s) (vertex_buffer s) (index_buffer s)
      (num_indices s) (diffuse_texture s) (diffuse_bind_group s) in
  match frame with
  | Err _ => Panicked timeout_msg s
  | Ok frame =>
      let (encoder, device) :=
        create_command_encoder (device s) (Some "Render Encoder"%string) in
      let encoder :=
        record encoder
          (BeginRenderPass (SwapChainOutput.view frame) Clear Store
             clear_color) in
      let encoder :=
        record encoder (SetPipeline (RenderPipeline.id (render_pipeline s))) in
      let encoder := record encoder (SetVertexBuffer 0 (vertex_buffer s) 0 0) in
      let encoder := record encoder (SetIndexBuffer (index_buffer s) 0 0) in
      let encoder := record encoder (SetBindGroup 0 (diffuse_bind_group s) []) in
      let encoder := record encoder (DrawIndexed (0, num_indices s) 0 (0, 1)) in
      let encoder := record encoder EndRenderPass in
      let queue := submit (queue s) [finish encoder] in
      Returned tt
        (mk (surface) (adapter s) device queue (sc_desc s) (swap_chain s)
           (size s) (render_pipeline s) (vertex_buffer s) (index_buffer s)
           (num_indices s) (diffuse_texture s) (diffuse_bind_group s))
  end.
End State.

(** ** main.rs: window events and the event loop *)

Inductive ElementState := Pressed | Released.
Inductive VirtualKeyCode := Escape | Space | OtherKey (code : Z).

Module KeyboardInput.
Record t := mk {
  scancode : Z;
  state : ElementState;
  virtual_keycode : option VirtualKeyCode
}.
End KeyboardInput.

Inductive WindowEvent :=
| Resized (size : PhysicalSize.t)
| CloseRequested
| KeyboardInputEv (device_id : nat) (input : KeyboardInput.t)
    (is_synthetic : bool)
| CursorMoved (device_id : nat) (x y : Q)
| ScaleFactorChanged (scale_factor : Q) (new_inner_size : PhysicalSize.t)
| OtherWindowEvent (tag : nat).

Inductive ControlFlow := Poll | Wait | Exit.

(** [State::input] *)
Definition input (s : State.t) (event : WindowEvent) : bool * State.t :=
  (false, s).

(** The default handling of a window event in [main]'s closure. *)
Definition default_window_event (s : State.t) (event : WindowEvent)
  (control_flow : ControlFlow) : State.t * ControlFlow :=
  match event with
  | CloseRequested => (s, Exit)
  | KeyboardInputEv _ input _ =>
      match KeyboardInput.state input, KeyboardInput.virtual_keycode input with
      | Pressed, Some Escape => (s, Exit)
      | _, _ => (s, control_flow)
      end
  | Resized physical_size => (State.resize s physical_size, control_flow)
  | ScaleFactorChanged _ new_inner_size =>
      (State.resize s new_inner_size, control_flow)
  | _ => (s, control_flow)
  end.

(** [Event::WindowEvent] for the program's window: the input hook first,
    then the default handling unless the hook handled the event. *)
Definition on_window_event (s : State.t) (event : WindowEvent)
  (control_flow : ControlFlow) : State.t * ControlFlow :=
  let (handled, s) := input s event in
  if negb handled then default_window_event s event control_flow
  else (s, control_flow).

Inductive Event :=
| WindowEventEv (window_id : nat) (event : WindowEvent)
| RedrawRequested (window_id : nat)
| MainEventsCleared
| OtherEvent.

(** One call of the closure given to [event_loop.run]; a panic in
    [render] ends the loop. *)
Definition event_loop_step (window_id : nat) (s : State.t) (event : Event)
  (control_flow : ControlFlow) : Outcome State.t (State.t * ControlFlow) :=
  match event with
  | WindowEventEv id ev =>
      if Nat.eqb id window_id then
        let (s, control_flow) := on_window_event s ev control_flow in
        Returned (s, control_flow) s
      else Returned (s, control_flow) s
  | RedrawRequested _ =>
      let s := State.update s in
      match State.render s with
      | Returned _ s => Returned (s, control_flow) s
      | Panicked msg s => Panicked msg s
      end
  | MainEventsCleared => Returned (s, control_flow) s
  | OtherEvent => Returned (s, control_flow) s
  end.

(** A sequence of [resize] calls. *)
Definition resize_all (s : State.t) (sizes : list PhysicalSize.t) : State.t :=
  fold_left State.resize sizes s.

(** ** Concrete inputs *)

Definition demo_rgba8 : ImageBuffer.t :=
  ImageBuffer.mk 2 1 (repeat Byte.x7f 8).

Definition demo_rgb8 : ImageBuffer.t :=
  ImageBuffer.mk 1 1 [Byte.x00; Byte.x80; Byte.xff].

(** A stand-in for [image::load_from_memory] that decodes every input to
    [img]. *)
Definition decode_to (img : DynamicImage) (_ : list Byte.byte)
  : result DynamicImage ImageError := Ok img.

Definition demo_surface (presentable : nat -> bool) : Surface.t :=
  Surface.mk 0 presentable 0.

Definition demo_new (presentable : nat -> bool) : Outcome unit State.t :=
  State.new (decode_to (ImageRgba8 demo_rgba8)) [] (PhysicalSize.mk 800 600)
    (demo_surface presentable) 0 (Device.mk []) (Queue.mk []).

(** The state [State::new] builds at 800x600 from a 2x1 RGBA8 image
    (its surface presents an image exactly at the attempts where
    [presentable] holds); the fallback branch is never taken. *)
Definition demo_state (presentable : nat -> bool) : State.t :=
  match demo_new presentable with
  | Returned s _ => s
  | Panicked _ _ =>
      State.mk (demo_surface presentable) 0 (Device.mk []) (Queue.mk [])
        (SwapChainDescriptor.mk 0 Bgra8UnormSrgb 0 0 Fifo)
        (SwapChain.mk 0 0 (SwapChainDescriptor.mk 0 Bgra8UnormSrgb 0 0 Fifo))
        (PhysicalSize.mk 0 0)
        (RenderPipeline.mk 0 (render_pipeline_descriptor 0 0 0 Bgra8UnormSrgb))
        0 0 0 (Texture.mk 0 0 0) 0
  end.

(** The states the program reaches: built by [State::new], then changed
    by [resize] and by [render] calls that return. *)
Inductive reachable : State.t -> Prop :=
| reach_new load_from_memory bytes size surface adapter device queue s :
    State.new load_from_memory bytes size surface adapter device queue
      = Returned s tt ->
    reachable s
| reach_resize s new_size :
    reachable s -> reachable (State.resize s new_size)
| reach_render s s' :
    reachable s -> State.render s = Returned tt s' -> reachable s'.

Definition is_draw (c : Command) : bool :=
  match c with
  | DrawIndexed _ _ _ => true
  | _ => false
  end.

(** The offsets of the fields of a packed record: the sum of the sizes
    of the fields before each one. *)
Fixpoint preceding_sizes (acc : Z) (fields : list RustTy) : list Z :=
  match fields with
  | [] => []
  | f :: rest => acc :: preceding_sizes (acc + size_of f) rest
  end.

(** The claimed row pitch of the copy recorded for a [W]x[H] image. *)
Definition records_copy_with_pitch (W H : Z) (cb : CommandBuffer.t) : Prop :=
  exists src dst,
    In (CopyBufferToTexture src dst (Extent3d.mk W H 1))
      (CommandBuffer.commands cb) /\
    BufferCopyView.bytes_per_row src = 4 * W.

(** * Properties *)

Lemma demo_new_returns (presentable : nat -> bool) :
  demo_new presentable = Returned (demo_state presentable) tt.
Proof. reflexivity. Qed.

(** What one [resize] call does to the state, field by field. *)
Lemma resize_unfold (s : State.t) (new_size : PhysicalSize.t) :
  let sc :=
    SwapChainDescriptor.mk (SwapChainDescriptor.usage (State.sc_desc s))
      (SwapChainDescriptor.format (State.sc_desc s))
      (PhysicalSize.width new_size) (PhysicalSize.height new_size)
      (SwapChainDescriptor.present_mode (State.sc_desc s)) in
  State.resize s new_size =
    State.mk (State.surface s) (State.adapter s)
      (Device.mk (Device.log (State.device s) ++
                  [CreateSwapChain (Surface.id (State.surface s)) sc]))
      (State.queue s) sc
      (SwapChain.mk (List.length (Device.log (State.device s)))
         (Surface.id (State.surface s)) sc)
      new_size (State.render_pipeline s) (State.vertex_buffer s)
      (State.index_buffer s) (State.num_indices s) (State.diffuse_texture s)
      (State.diffuse_bind_group s).
Proof. reflexivity. Qed.

Lemma resize_all_snoc (s : State.t) (sizes : list PhysicalSize.t)
  (sz : PhysicalSize.t) :
  resize_all s (sizes ++ [sz]) = State.resize (resize_all s sizes) sz.
Proof. unfold resize_all. now rewrite fold_left_app. Qed.

(** ** C1 *)

(** C1: after any sequence of [resize] calls ending with size [(w, h)],
    the swap chain descriptor has width [w] and height [h], the stored
    size is [(w, h)], the swap chain in use was created on the session's
    surface from exactly that descriptor by the last call (the last device
    call), and the next image acquired from it has extent [(w, h)]. *)
Theorem resize_sequence_swap_chain_matches_last_size
  (s : State.t) (sizes : list PhysicalSize.t) (sz : PhysicalSize.t)
  (surface : Surface.t) :
  let s' := resize_all s (sizes ++ [sz]) in
  SwapChainDescriptor.width (State.sc_desc s') = PhysicalSize.width sz /\
  SwapChainDescriptor.height (State.sc_desc s') = PhysicalSize.height sz /\
  State.size s' = sz /\
  SwapChain.desc (State.swap_chain s') = State.sc_desc s' /\
  SwapChain.surface (State.swap_chain s') = Surface.id (State.surface s') /\
  last (Device.log (State.device s')) (CreateShaderModule VertexShader) =
    CreateSwapChain (Surface.id (State.surface s')) (State.sc_desc s') /\
  match fst (get_next_texture (State.swap_chain s') surface) with
  | Ok frame =>
      SwapChainOutput.width frame = PhysicalSize.width sz /\
      SwapChainOutput.height frame = PhysicalSize.height sz
  | Err _ => True
  end.
Proof.
  cbv zeta. rewrite resize_all_snoc, resize_unfold. cbn.
  repeat split; try reflexivity.
  - now rewrite last_last.
  - unfold get_next_texture; cbn.
    destruct (Surface.presentable surface _); cbn; auto.
Qed.

(** ** C2 *)

Definition sc_matches_size (s : State.t) : Prop :=
  SwapChainDescriptor.width (State.sc_desc s) =
    PhysicalSize.width (State.size s) /\
  SwapChainDescriptor.height (State.sc_desc s) =
    PhysicalSize.height (State.size s).

(** C2 (counterexample): at the state [State::new] builds, resizing to
    the stored size is not a no-op: it issues one more device call and
    replaces the swap chain handle. *)
Lemma resize_same_size_not_noop :
  let s := demo_state (fun _ => true) in
  let s' := State.resize s (State.size s) in
  State.size s' = State.size s /\
  State.sc_desc s' = State.sc_desc s /\
  Device.log (State.device s') <> Device.log (State.device s) /\
  State.swap_chain s' <> State.swap_chain s.
Proof.
  vm_compute. repeat split; try reflexivity; discriminate.
Qed.

(** C2 (amended): when the descriptor already matches the stored size,
    [resize] with that size leaves the stored size and the descriptor
    unchanged, but always recreates the swap chain: one [create_swap_chain]
    call on the device and a fresh swap chain handle; nothing else
    changes. *)
Theorem resize_same_size_recreates_swap_chain (s : State.t)
  (Hinv : sc_matches_size s) :
  State.resize s (State.size s) =
    State.mk (State.surface s) (State.adapter s)
      (Device.mk (Device.log (State.device s) ++
                  [CreateSwapChain (Surface.id (State.surface s))
                     (State.sc_desc s)]))
      (State.queue s) (State.sc_desc s)
      (SwapChain.mk (List.length (Device.log (State.device s)))
         (Surface.id (State.surface s)) (State.sc_desc s))
      (State.size s) (State.render_pipeline s) (State.vertex_buffer s)
      (State.index_buffer s) (State.num_indices s) (State.diffuse_texture s)
      (State.diffuse_bind_group s).
Proof.
  destruct Hinv as [Hw Hh].
  rewrite resize_unfold; cbv zeta.
  destruct (State.sc_desc s) as [u f w h pm] eqn:E; cbn in *.
  now rewrite <- Hw, <- Hh.
Qed.

Lemma resize_same_size_recreates_swap_chain_witness :
  sc_matches_size (demo_state (fun _ => true)) /\
  State.resize (demo_state (fun _ => true))
    (State.size (demo_state (fun _ => true))) <>
    demo_state (fun _ => true).
Proof.
  assert (H : sc_matches_size (demo_state (fun _ => true)))
    by (split; reflexivity).
  split; [exact H|].
  rewrite (resize_same_size_recreates_swap_chain _ H).
  intro E. apply (f_equal (fun s => List.length (Device.log (State.device s)))) in E.
  vm_compute in E. discriminate.
Defined.

(** ** C3 *)



(** ** C10 *)

(** C10: the input hook returns [false] and leaves the state unchanged for
    every window event, so [main]'s closure always applies its default
    handling (close, escape, resize). *)
Theorem input_never_handles (s : State.t) (event : WindowEvent)
  (control_flow : ControlFlow) :
  input s event = (false, s) /\
  on_window_event s event control_flow =
    default_window_event s event control_flow.
Proof. split; reflexivity. Qed.

(** ** The frame renderer *)

(** The command buffer [render] submits after acquiring [frame]. *)
Definition render_commands (s : State.t) (frame : SwapChainOutput.t)
  : CommandBuffer.t :=
  CommandBuffer.mk (Some "Render Encoder"%string)
    [ BeginRenderPass (SwapChainOutput.view frame) Clear Store clear_color;
      SetPipeline (RenderPipeline.id (State.render_pipeline s));
      SetVertexBuffer 0 (State.vertex_buffer s) 0 0;
      SetIndexBuffer (State.index_buffer s) 0 0;
      SetBindGroup 0 (State.diffuse_bind_group s) [];
      DrawIndexed (0, State.num_indices s) 0 (0, 1);
      EndRenderPass ].

Lemma render_returned (s s' : State.t) :
  State.render s = Returned tt s' ->
  exists frame surface,
    get_next_texture (State.swap_chain s) (State.surface s) =
      (Ok frame, surface) /\
    s' = State.mk surface (State.adapter s)
           (Device.mk (Device.log (State.device s) ++
                       [CreateCommandEncoder (Some "Render Encoder"%string)]))
           (submit (State.queue s) [render_commands s frame])
           (State.sc_desc s) (State.swap_chain s) (State.size s)
           (State.render_pipeline s) (State.vertex_buffer s)
           (State.index_buffer s) (State.num_indices s)
           (State.diffuse_texture s) (State.diffuse_bind_group s).
Proof.
  unfold State.render.
  destruct (get_next_texture (State.swap_chain s) (State.surface s))
    as [[frame|e] surface] eqn:E; cbn; intro H; inversion H; subst.
  exists frame, surface. split; reflexivity.
Qed.

(** What every reachable state keeps from [State::new]. *)
Definition new_invariant (s : State.t) : Prop :=
  State.num_indices s = 9 /\
  SwapChainDescriptor.format (State.sc_desc s) = Bgra8UnormSrgb /\
  exists layout vs_module fs_module,
    RenderPipeline.desc (State.render_pipeline s) =
      render_pipeline_descriptor layout vs_module fs_module
        (SwapChainDescriptor.format (State.sc_desc s)).

Lemma reachable_new_invariant (s : State.t) :
  reachable s -> new_invariant s.
Proof.
  induction 1 as [ld bytes size surface adapter device queue s H
                 | s new_size _ IH | s s' _ IH Hr].
  - unfold State.new in H. cbn in H.
    destruct (from_bytes ld _ bytes) as [[[tex cb]|e] d | msg d];
      cbn in H; try discriminate.
    inversion H; subst; clear H.
    split; [reflexivity|]. split; [reflexivity|].
    do 3 eexists; reflexivity.
  - rewrite resize_unfold. exact IH.
  - apply render_returned in Hr as (frame & surface & _ & ->). exact IH.
Qed.

(** ** C4 *)

(** C4: every [render] call that returns, from any state the program
    reaches, submits one command buffer whose only draw is an indexed draw
    of indices [0..num_indices] with base vertex 0 and the single instance
    [0..1]; the cached index count is the length of [INDICES], which for
    the pentagon fixture (5 vertices, 9 indices) is 9. *)
Theorem render_draws_all_indices_once (s s' : State.t)
  (Hreach : reachable s) (Hrender : State.render s = Returned tt s') :
  exists cb,
    Queue.submitted (State.queue s') = Queue.submitted (State.queue s) ++ [cb] /\
    filter is_draw (CommandBuffer.commands cb) =
      [DrawIndexed (0, State.num_indices s) 0 (0, 1)] /\
    State.num_indices s = Z.of_nat (List.length INDICES) /\
    State.num_indices s = 9 /\
    List.length VERTICES = 5%nat.
Proof.
  destruct (reachable_new_invariant s Hreach) as (Hn & _).
  apply render_returned in Hrender as (frame & surface & _ & ->).
  exists (render_commands s frame). cbn.
  repeat split; try reflexivity; exact Hn.
Qed.

Lemma render_draws_all_indices_once_witness :
  exists s',
    reachable (demo_state (fun _ => true)) /\
    State.render (demo_state (fun _ => true)) = Returned tt s' /\
    exists cb,
      Queue.submitted (State.queue s') =
        Queue.submitted (State.queue (demo_state (fun _ => true))) ++ [cb] /\
      filter is_draw (CommandBuffer.commands cb) = [DrawIndexed (0, 9) 0 (0, 1)].
Proof.
  assert (Hr : reachable (demo_state (fun _ => true)))
    by (eapply reach_new; apply demo_new_returns).
  destruct (State.render (demo_state (fun _ => true))) as [[] s'|msg s'] eqn:E;
    [| vm_compute in E; discriminate].
  exists s'. split; [exact Hr|]. split; [reflexivity|].
  destruct (render_draws_all_indices_once _ _ Hr E) as (cb & H1 & H2 & H3 & H4 & _).
  exists cb. split; [exact H1|]. rewrite H2, H4. reflexivity.
Defined.

(** ** C5 *)

(** C5 (counterexample): at the state [State::new] builds on a surface
    that never presents an image in time, [render] does not return to its
    caller with the failure: it panics through [expect]. *)
Lemma render_timeout_panics :
  match State.render (demo_state (fun _ => false)) with
  | Panicked msg _ => msg = State.timeout_msg
  | Returned _ _ => False
  end.
Proof. vm_compute. reflexivity. Qed.

(** C5 (amended): when the acquisition fails, [render] makes exactly one
    acquisition attempt (no retry) and then panics with
    "Timeout getting texture: TimeOut"; no device call is made and nothing
    is submitted. *)
Theorem render_acquire_failure_panics_once (s : State.t)
  (Hfail : Surface.presentable (State.surface s)
             (Surface.acquire_attempts (State.surface s)) = false) :
  exists s',
    State.render s = Panicked State.timeout_msg s' /\
    Surface.acquire_attempts (State.surface s') =
      S (Surface.acquire_attempts (State.surface s)) /\
    State.device s' = State.device s /\
    State.queue s' = State.queue s /\
    State.swap_chain s' = State.swap_chain s /\
    State.sc_desc s' = State.sc_desc s.
Proof.
  unfold State.render, get_next_texture. destruct s as [[id p n]]; cbn in *.
  rewrite Hfail. cbn.
  eexists. repeat split.
Qed.

Lemma render_acquire_failure_panics_once_witness :
  Surface.presentable (State.surface (demo_state (fun _ => false)))
    (Surface.acquire_attempts (State.surface (demo_state (fun _ => false))))
    = false /\
  exists s', State.render (demo_state (fun _ => false)) = Panicked State.timeout_msg s'.
Proof.
  assert (H : Surface.presentable (State.surface (demo_state (fun _ => false)))
      (Surface.acquire_attempts (State.surface (demo_state (fun _ => false))))
      = false) by reflexivity.
  split; [exact H|].
  destruct (render_acquire_failure_panics_once _ H) as (s' & E & _).
  exists s'. exact E.
Defined.

(** ** C9 *)

(** C9: the render pipeline of every reachable state has counter-clockwise
    front faces with back-face culling, exactly one color target in the
    swap chain descriptor's format with the replace blend (source factor
    one, destination factor zero, add) on color and alpha, triangle-list
    topology and 16-bit indices. *)
Theorem render_pipeline_fixed_state (s : State.t) (Hreach : reachable s) :
  let d := RenderPipeline.desc (State.render_pipeline s) in
  match RenderPipelineDescriptor.rasterization_state d with
  | Some r =>
      RasterizationStateDescriptor.front_face r = Ccw /\
      RasterizationStateDescriptor.cull_mode r = Back
  | None => False
  end /\
  match RenderPipelineDescriptor.color_states d with
  | [c] =>
      ColorStateDescriptor.format c =
        SwapChainDescriptor.format (State.sc_desc s) /\
      ColorStateDescriptor.color_blend c = BlendDescriptor.mk One Zero Add /\
      ColorStateDescriptor.alpha_blend c = BlendDescriptor.mk One Zero Add
  | _ => False
  end /\
  RenderPipelineDescriptor.primitive_topology d = TriangleList /\
  VertexStateDescriptor.index_format (RenderPipelineDescriptor.vertex_state d)
    = Uint16.
Proof.
  destruct (reachable_new_invariant s Hreach) as (_ & _ & l & v & f & Hd).
  cbv zeta. rewrite Hd. cbn. repeat split.
Qed.

Lemma render_pipeline_fixed_state_witness :
  reachable (demo_state (fun _ => true)) /\
  RenderPipelineDescriptor.primitive_topology
    (RenderPipeline.desc (State.render_pipeline (demo_state (fun _ => true))))
    = TriangleList.
Proof.
  assert (Hr : reachable (demo_state (fun _ => true)))
    by (eapply reach_new; apply demo_new_returns).
  split; [exact Hr|].
  destruct (render_pipeline_fixed_state _ Hr) as (_ & _ & Ht & _).
  exact Ht.
Defined.

(** ** Texture upload *)

(** A decoding failure of [load_from_memory] is returned as an
    [ImageDecodeError] and no device object is created. *)
Lemma from_bytes_decode_error
  (load_from_memory : list Byte.byte -> result DynamicImage ImageError)
  (device : Device.t) (bytes : list Byte.byte) (e : ImageError)
  (Hload : load_from_memory bytes = Err e) :
  from_bytes load_from_memory device bytes =
    Returned (Err (ImageDecodeError e)) device.
Proof. unfold from_bytes. now rewrite Hload. Qed.

(** ** C6 *)

(** C6 (code defect): bytes that decode to an image that is not RGBA8 (an
    RGB8 PNG, for instance) make [from_bytes] panic at
    [img.as_rgba8().unwrap()] instead of returning an error; no device
    object has been created at that point. *)
Theorem from_bytes_non_rgba8_panics
  (load_from_memory : list Byte.byte -> result DynamicImage ImageError)
  (device : Device.t) (bytes : list Byte.byte) (img : DynamicImage)
  (Hload : load_from_memory bytes = Ok img) (Hfmt : as_rgba8 img = None) :
  from_bytes load_from_memory device bytes =
    Panicked option_unwrap_msg device.
Proof. unfold from_bytes, from_image, from_image_in. now rewrite Hload, Hfmt. Qed.

Lemma from_bytes_non_rgba8_panics_witness :
  decode_to (ImageRgb8 demo_rgb8) [] = Ok (ImageRgb8 demo_rgb8) /\
  from_bytes (decode_to (ImageRgb8 demo_rgb8)) (Device.mk []) [] =
    Panicked option_unwrap_msg (Device.mk []).
Proof.
  split; [reflexivity|].
  apply (from_bytes_non_rgba8_panics _ _ _ (ImageRgb8 demo_rgb8));
    reflexivity.
Defined.

(** ** C7 *)

Lemma big_rgba8_raw : exists raw : list Byte.byte,
  Z.of_nat (List.length raw) = 2 ^ 32.
Proof.
  exists (repeat Byte.x00 (Z.to_nat (2 ^ 32))).
  rewrite repeat_length, Z2Nat.id; [reflexivity | lia].
Qed.

(** C7 (code defect): [from_image] computes the row pitch [4 * dimensions.0]
    as a [u32] product, with no check, in a function that returns a
    [Result].  For a well-formed RGBA8 image whose width [W] has
    [4 * W >= 2^32] (from [W = 2^30] on) the product overflows: a release
    build returns [Ok] with the copy recorded at the wrapped-around pitch
    [4 * W mod 2^32], so no copy with pitch [4 * W] is recorded; a debug
    build panics with the overflow message once the texture, the staging
    buffer and the encoder have been created.  Neither build returns an
    error. *)
Theorem from_image_row_pitch_overflow (device : Device.t) (buf : ImageBuffer.t)
  (Hwf : rgba8_well_formed buf)
  (Hbig : u32_modulus <= 4 * ImageBuffer.width buf) :
  let W := ImageBuffer.width buf in
  let H := ImageBuffer.height buf in
  let n := List.length (Device.log device) in
  (exists tex cb device',
     from_image_in Release device (ImageRgba8 buf) =
       Returned (Ok (tex, cb)) device' /\
     CommandBuffer.commands cb =
       [CopyBufferToTexture
          (BufferCopyView.mk (S n) 0 ((4 * W) mod u32_modulus) H)
          (TextureCopyView.mk n 0 0 Origin3d_ZERO) (Extent3d.mk W H 1)] /\
     ~ records_copy_with_pitch W H cb) /\
  (exists device',
     from_image_in Debug device (ImageRgba8 buf) =
       Panicked mul_overflow_msg device' /\
     Device.log device' =
       Device.log device ++
         [CreateTexture (from_image_texture_descriptor (Extent3d.mk W H 1));
          CreateBufferWithData (BufBytes (ImageBuffer.raw buf))
            BufferUsage_COPY_SRC;
          CreateCommandEncoder (Some "texture_buffer_copy_encoder"%string)]).
Proof.
  destruct Hwf as ([HW0 HW] & _).
  cbv zeta. split.
  - unfold from_image_in. cbn -[u32_mul].
    do 3 eexists. split; [reflexivity|].
    split; [cbn -[u32_mul]; rewrite length_app, Nat.add_1_r; reflexivity|].
    intros (src & dst & Hin & Hpitch). cbn -[u32_mul] in Hin.
    destruct Hin as [E|[]]. inversion E; subst. cbn in Hpitch.
    assert (Hb : 0 <= 4 * ImageBuffer.width buf mod u32_modulus < u32_modulus)
      by (apply Z.mod_pos_bound; unfold u32_modulus; lia).
    change (u32_mul 4 (ImageBuffer.width buf) = 4 * ImageBuffer.width buf) in Hpitch.
    unfold u32_mul in Hpitch. lia.
  - assert (Hov : (4 * ImageBuffer.width buf <? u32_modulus) = false)
      by (apply Z.ltb_ge; exact Hbig).
    unfold from_image_in. cbn -[Z.ltb Z.mul u32_modulus]. rewrite Hov.
    eexists. split; [reflexivity|]. cbn.
    rewrite <- !app_assoc. reflexivity.
Qed.

Lemma from_image_row_pitch_overflow_witness :
  exists buf,
    rgba8_well_formed buf /\
    ImageBuffer.width buf = 2 ^ 30 /\ ImageBuffer.height buf = 1 /\
    u32_modulus <= 4 * ImageBuffer.width buf /\
    (exists tex cb device',
       from_image_in Release (Device.mk []) (ImageRgba8 buf) =
         Returned (Ok (tex, cb)) device' /\
       CommandBuffer.commands cb =
         [CopyBufferToTexture (BufferCopyView.mk 1 0 0 1)
            (TextureCopyView.mk 0 0 0 Origin3d_ZERO)
            (Extent3d.mk (2 ^ 30) 1 1)] /\
       ~ records_copy_with_pitch (2 ^ 30) 1 cb) /\
    (exists device',
       from_image_in Debug (Device.mk []) (ImageRgba8 buf) =
         Panicked mul_overflow_msg device').
Proof.
  destruct big_rgba8_raw as [raw Hraw].
  assert (Hwf : rgba8_well_formed (ImageBuffer.mk (2 ^ 30) 1 raw)).
  { unfold rgba8_well_formed, is_u32, u32_modulus; cbn.
    rewrite Hraw. repeat split; lia. }
  assert (Hbig : u32_modulus <= 4 * ImageBuffer.width
                                     (ImageBuffer.mk (2 ^ 30) 1 raw))
    by (unfold u32_modulus; cbn; lia).
  exists (ImageBuffer.mk (2 ^ 30) 1 raw).
  destruct (from_image_row_pitch_overflow (Device.mk []) _ Hwf Hbig)
    as [(tex & cb & d & E & Hc & Hn) (d' & E' & _)].
  split; [exact Hwf|]. split; [reflexivity|]. split; [reflexivity|].
  split; [exact Hbig|]. split.
  - exists tex, cb, d. split; [exact E|]. split; [exact Hc|exact Hn].
  - exists d'. exact E'.
Defined.

(** ** C8 *)

(** C8: in [Vertex::descriptor], each attribute's offset is the sum of
    the sizes of the fields of [Vertex] before it (0, then the size of
    [[f32; 3]]), the shader locations are 0, 1, ... in field order, each
    format matches its field, and the stride is [mem::size_of::<Vertex>()]. *)
Theorem vertex_descriptor_layout :
  let attrs := VertexBufferDescriptor.attributes Vertex_descriptor in
  map VertexAttributeDescriptor.offset attrs = preceding_sizes 0 Vertex_fields /\
  map VertexAttributeDescriptor.shader_location attrs =
    map Z.of_nat (seq 0 (List.length Vertex_fields)) /\
  map VertexAttributeDescriptor.format attrs = [Float3; Float2] /\
  Vertex_fields = [Array F32 3; Array F32 2] /\
  map VertexAttributeDescriptor.offset attrs = [0; size_of (Array F32 3)] /\
  VertexBufferDescriptor.stride Vertex_descriptor = size_of Vertex_ty /\
  size_of Vertex_ty = fold_left Z.add (map size_of Vertex_fields) 0.
Proof. vm_compute. repeat split. Qed.

(** * Further properties of the code *)

(** ** Helpers *)

(** What a successful [from_image] did: the image was RGBA8 and five
    objects were created, in this order. *)
Lemma from_image_ok_shape (device device' : Device.t) (img : DynamicImage)
  (tex : Texture.t) (cb : CommandBuffer.t) :
  from_image device img = Returned (Ok (tex, cb)) device' ->
  let n := List.length (Device.log device) in
  exists buf,
    img = ImageRgba8 buf /\
    tex = Texture.mk n (n + 3) (n + 4) /\
    CommandBuffer.commands cb =
      [CopyBufferToTexture
         (BufferCopyView.mk (S n) 0 (u32_mul 4 (ImageBuffer.width buf))
            (ImageBuffer.height buf))
         (TextureCopyView.mk n 0 0 Origin3d_ZERO)
         (Extent3d.mk (ImageBuffer.width buf) (ImageBuffer.height buf) 1)] /\
    Device.log device' =
      Device.log device ++
        [CreateTexture (from_image_texture_descriptor
                          (Extent3d.mk (ImageBuffer.width buf)
                             (ImageBuffer.height buf) 1));
         CreateBufferWithData (BufBytes (ImageBuffer.raw buf))
           BufferUsage_COPY_SRC;
         CreateCommandEncoder (Some "texture_buffer_copy_encoder"%string);
         CreateTextureView n;
         CreateSampler from_image_sampler_descriptor].
Proof.
  unfold from_image, from_image_in.
  destruct img as [b|b|b|b|b|b|b|b|b|b]; cbn; try discriminate.
  intro H. inversion H; subst; clear H. exists b.
  rewrite !length_app; cbn.
  split; [reflexivity|].
  split; [f_equal; lia|].
  split.
  - do 3 f_equal. f_equal. lia.
  - rewrite <- !app_assoc. reflexivity.
Qed.

Lemma nth_error_app_prefix {A} (l l' : list A) (i : nat) (x : A) :
  nth_error l i = Some x -> nth_error (l ++ l') i = Some x.
Proof.
  intro H. rewrite nth_error_app1; [exact H|].
  apply nth_error_Some. congruence.
Qed.

Lemma nth_error_at_length {A} (l l' : list A) (x : A) :
  nth_error (l ++ x :: l') (List.length l) = Some x.
Proof. rewrite nth_error_app2, Nat.sub_diag; reflexivity. Qed.

Lemma nth_error_app_length_plus {A} (l l' : list A) (k : nat) :
  nth_error (l ++ l') (List.length l + k) = nth_error l' k.
Proof.
  rewrite nth_error_app2 by lia. f_equal. lia.
Qed.

(** What a [State::new] that returns has built, with [n] the length of
    the device log it started from. *)
Lemma new_shape
  (load_from_memory : list Byte.byte -> result DynamicImage ImageError)
  (bytes : list Byte.byte) (size : PhysicalSize.t) (surface : Surface.t)
  (adapter : nat) (device : Device.t) (queue : Queue.t) (s : State.t) :
  State.new load_from_memory bytes size surface adapter device queue
    = Returned s tt ->
  let n := List.length (Device.log device) in
  let sc := SwapChainDescriptor.mk TextureUsage_OUTPUT_ATTACHMENT
              Bgra8UnormSrgb (PhysicalSize.width size)
              (PhysicalSize.height size) Fifo in
  exists buf cb,
    load_from_memory bytes = Ok (ImageRgba8 buf) /\
    State.surface s = surface /\
    State.size s = size /\
    State.sc_desc s = sc /\
    State.swap_chain s = SwapChain.mk n (Surface.id surface) sc /\
    State.diffuse_texture s = Texture.mk (n + 1) (n + 4) (n + 5) /\
    State.diffuse_bind_group s = (n + 7)%nat /\
    RenderPipeline.id (State.render_pipeline s) = (n + 11)%nat /\
    RenderPipeline.desc (State.render_pipeline s) =
      render_pipeline_descriptor (n + 10) (n + 8) (n + 9) Bgra8UnormSrgb /\
    State.vertex_buffer s = (n + 12)%nat /\
    State.index_buffer s = (n + 13)%nat /\
    State.queue s = submit queue [cb] /\
    CommandBuffer.commands cb =
      [CopyBufferToTexture
         (BufferCopyView.mk (n + 2) 0 (u32_mul 4 (ImageBuffer.width buf))
            (ImageBuffer.height buf))
         (TextureCopyView.mk (n + 1) 0 0 Origin3d_ZERO)
         (Extent3d.mk (ImageBuffer.width buf) (ImageBuffer.height buf) 1)] /\
    Device.log (State.device s) =
      Device.log device ++
        [CreateSwapChain (Surface.id surface) sc;
         CreateTexture (from_image_texture_descriptor
                          (Extent3d.mk (ImageBuffer.width buf)
                             (ImageBuffer.height buf) 1));
         CreateBufferWithData (BufBytes (ImageBuffer.raw buf))
           BufferUsage_COPY_SRC;
         CreateCommandEncoder (Some "texture_buffer_copy_encoder"%string);
         CreateTextureView (n + 1);
         CreateSampler from_image_sampler_descriptor;
         CreateBindGroupLayout texture_bind_group_layout_entries
           (Some "texture_bind_group_layout"%string);
         CreateBindGroup (n + 6)
           [ Binding.mk 0 (TextureViewRes (n + 4));
             Binding.mk 1 (SamplerRes (n + 5)) ]
           (Some "diffuse_bind_group"%string);
         CreateShaderModule VertexShader;
         CreateShaderModule FragmentShader;
         CreatePipelineLayout [(n + 6)%nat];
         CreateRenderPipeline (RenderPipeline.desc (State.render_pipeline s));
         CreateBufferWithData (BufVertices VERTICES) BufferUsage_VERTEX;
         CreateBufferWithData (BufIndices INDICES) BufferUsage_INDEX].
Proof.
  unfold State.new. cbn. unfold from_bytes.
  destruct (load_from_memory bytes) as [img|e] eqn:Hl; cbn; [|discriminate].
  destruct (from_image _ img) as [[[tex cb]|e] d'|msg d'] eqn:Hfi;
    cbn; try discriminate.
  apply from_image_ok_shape in Hfi as (buf & -> & -> & Hcmd & Hlog).
  intro H; inversion H; subst; clear H.
  rewrite Hlog in *. cbn in *.
  exists buf, cb.
  rewrite !length_app in *; cbn in *.
  repeat split; try reflexivity; try lia.
  all: try (f_equal; lia).
  - rewrite Hcmd. repeat f_equal; lia.
  - rewrite <- !app_assoc. cbn. rewrite <- !Nat.add_assoc. reflexivity.
Qed.

(** What every reachable session keeps: the descriptor matches the stored
    size, the swap chain in use was built from it on the session's
    surface, and every handle the state holds names the device call that
    created it. *)
Definition session_invariant (s : State.t) : Prop :=
  let log := Device.log (State.device s) in
  let tex := State.diffuse_texture s in
  let rp := State.render_pipeline s in
  sc_matches_size s /\
  SwapChain.desc (State.swap_chain s) = State.sc_desc s /\
  SwapChain.surface (State.swap_chain s) = Surface.id (State.surface s) /\
  nth_error log (SwapChain.id (State.swap_chain s)) =
    Some (CreateSwapChain (Surface.id (State.surface s)) (State.sc_desc s)) /\
  nth_error log (State.vertex_buffer s) =
    Some (CreateBufferWithData (BufVertices VERTICES) BufferUsage_VERTEX) /\
  nth_error log (State.index_buffer s) =
    Some (CreateBufferWithData (BufIndices INDICES) BufferUsage_INDEX) /\
  nth_error log (RenderPipeline.id rp) =
    Some (CreateRenderPipeline (RenderPipeline.desc rp)) /\
  nth_error log (Texture.view tex) =
    Some (CreateTextureView (Texture.texture tex)) /\
  nth_error log (Texture.sampler tex) =
    Some (CreateSampler from_image_sampler_descriptor) /\
  (exists W H, nth_error log (Texture.texture tex) =
     Some (CreateTexture (from_image_texture_descriptor (Extent3d.mk W H 1)))) /\
  (exists layout,
     nth_error log layout =
       Some (CreateBindGroupLayout texture_bind_group_layout_entries
               (Some "texture_bind_group_layout"%string)) /\
     nth_error log (RenderPipelineDescriptor.layout (RenderPipeline.desc rp)) =
       Some (CreatePipelineLayout [layout]) /\
     nth_error log (State.diffuse_bind_group s) =
       Some (CreateBindGroup layout
               [ Binding.mk 0 (TextureViewRes (Texture.view tex));
                 Binding.mk 1 (SamplerRes (Texture.sampler tex)) ]
               (Some "diffuse_bind_group"%string))).

Lemma session_invariant_new
  (load_from_memory : list Byte.byte -> result DynamicImage ImageError)
  (bytes : list Byte.byte) (size : PhysicalSize.t) (surface : Surface.t)
  (adapter : nat) (device : Device.t) (queue : Queue.t) (s : State.t) :
  State.new load_from_memory bytes size surface adapter device queue
    = Returned s tt ->
  session_invariant s.
Proof.
  intro Hn.
  apply new_shape in Hn as (buf & cb & _ & Hsf & Hsz & Hsc & Hsw & Htex & Hbg
                            & Hrp & Hd & Hvb & Hib & _ & _ & Hlog).
  unfold session_invariant, sc_matches_size.
  rewrite Hlog, Hsw, Htex, Hbg, Hrp, Hd, Hvb, Hib, Hsc, Hsz, Hsf. cbn.
  repeat split; try reflexivity.
  all: try (rewrite nth_error_app_length_plus; reflexivity).
  - apply nth_error_at_length.
  - exists (ImageBuffer.width buf), (ImageBuffer.height buf).
    rewrite nth_error_app_length_plus. reflexivity.
  - exists (List.length (Device.log device) + 6)%nat.
    repeat split; rewrite nth_error_app_length_plus; reflexivity.
Qed.

Lemma get_next_texture_surface (swap_chain : SwapChain.t) (surface : Surface.t) :
  let surface' := snd (get_next_texture swap_chain surface) in
  Surface.id surface' = Surface.id surface /\
  Surface.presentable surface' = Surface.presentable surface /\
  Surface.acquire_attempts surface' = S (Surface.acquire_attempts surface).
Proof.
  unfold get_next_texture; cbn.
  destruct (Surface.presentable surface _); repeat split.
Qed.

Lemma session_invariant_resize (s : State.t) (new_size : PhysicalSize.t) :
  session_invariant s -> session_invariant (State.resize s new_size).
Proof.
  intros (_ & _ & _ & _ & Hvb & Hib & Hrp & Hv & Hsm & [W [H Ht]]
          & [layout (Hbgl & Hpl & Hbg)]).
  rewrite resize_unfold. unfold session_invariant, sc_matches_size; cbn.
  repeat split; try reflexivity; try (apply nth_error_app_prefix; assumption).
  - apply (nth_error_at_length _ []).
  - exists W, H. apply nth_error_app_prefix; assumption.
  - exists layout. repeat split; apply nth_error_app_prefix; assumption.
Qed.

Lemma session_invariant_render (s s' : State.t) :
  session_invariant s -> State.render s = Returned tt s' ->
  session_invariant s'.
Proof.
  intros (Hm & Hd & Hsf & Hsc & Hvb & Hib & Hrp & Hv & Hsm & [W [H Ht]]
          & [layout (Hbgl & Hpl & Hbg)]) Hr.
  apply render_returned in Hr as (frame & surface & Hg & ->).
  destruct (get_next_texture_surface (State.swap_chain s) (State.surface s))
    as (Hid & _ & _).
  rewrite Hg in Hid. cbn in Hid.
  unfold session_invariant; cbn. rewrite Hid.
  repeat split; try assumption; try (apply nth_error_app_prefix; assumption).
  - exact (proj1 Hm).
  - exact (proj2 Hm).
  - exists W, H. apply nth_error_app_prefix; assumption.
  - exists layout. repeat split; apply nth_error_app_prefix; assumption.
Qed.

Lemma reachable_session_invariant (s : State.t) :
  reachable s -> session_invariant s.
Proof.
  induction 1 as [ld bytes size surface adapter device queue s H
                 | s new_size _ IH | s s' _ IH Hr].
  - exact (session_invariant_new _ _ _ _ _ _ _ _ H).
  - exact (session_invariant_resize _ _ IH).
  - exact (session_invariant_render _ _ IH Hr).
Qed.

(** ** Session invariants *)

Lemma demo_state_reachable (presentable : nat -> bool) :
  reachable (demo_state presentable).
Proof. eapply reach_new. apply demo_new_returns. Qed.

(** In every reachable state the swap chain descriptor has the stored
    window size, and the swap chain in use was created by the device on
    the session's surface from exactly that descriptor. *)
Theorem reachable_swap_chain_consistent (s : State.t) (Hreach : reachable s) :
  SwapChainDescriptor.width (State.sc_desc s) =
    PhysicalSize.width (State.size s) /\
  SwapChainDescriptor.height (State.sc_desc s) =
    PhysicalSize.height (State.size s) /\
  SwapChain.desc (State.swap_chain s) = State.sc_desc s /\
  SwapChain.surface (State.swap_chain s) = Surface.id (State.surface s) /\
  nth_error (Device.log (State.device s)) (SwapChain.id (State.swap_chain s)) =
    Some (CreateSwapChain (Surface.id (State.surface s)) (State.sc_desc s)).
Proof.
  destruct (reachable_session_invariant s Hreach)
    as ([Hw Hh] & Hd & Hs & Hc & _).
  repeat split; assumption.
Qed.

Lemma reachable_swap_chain_consistent_witness :
  reachable (State.resize (demo_state (fun _ => true)) (PhysicalSize.mk 400 300)) /\
  SwapChainDescriptor.width
    (State.sc_desc (State.resize (demo_state (fun _ => true))
                      (PhysicalSize.mk 400 300))) = 400.
Proof.
  assert (Hr : reachable (State.resize (demo_state (fun _ => true))
                            (PhysicalSize.mk 400 300)))
    by (apply reach_resize, demo_state_reachable).
  split; [exact Hr|].
  destruct (reachable_swap_chain_consistent _ Hr) as (Hw & _).
  rewrite Hw. reflexivity.
Defined.

(** In every reachable state, an image acquired from the swap chain in use
    has the stored window size as its extent. *)
Theorem reachable_frame_extent (s : State.t) (Hreach : reachable s)
  (frame : SwapChainOutput.t) (surface : Surface.t)
  (Hacq : get_next_texture (State.swap_chain s) (State.surface s) =
            (Ok frame, surface)) :
  SwapChainOutput.width frame = PhysicalSize.width (State.size s) /\
  SwapChainOutput.height frame = PhysicalSize.height (State.size s).
Proof.
  destruct (reachable_session_invariant s Hreach) as ([Hw Hh] & Hd & _).
  unfold get_next_texture in Hacq. cbn in Hacq.
  destruct (Surface.presentable (State.surface s) _); [|discriminate].
  inversion Hacq; subst; cbn. rewrite Hd. split; assumption.
Qed.

Lemma reachable_frame_extent_witness :
  let s := State.resize (demo_state (fun _ => true)) (PhysicalSize.mk 400 300) in
  exists frame surface,
    reachable s /\
    get_next_texture (State.swap_chain s) (State.surface s) =
      (Ok frame, surface) /\
    SwapChainOutput.width frame = 400 /\ SwapChainOutput.height frame = 300.
Proof.
  cbv zeta.
  assert (Hr : reachable (State.resize (demo_state (fun _ => true))
                            (PhysicalSize.mk 400 300)))
    by (apply reach_resize, demo_state_reachable).
  destruct (get_next_texture
              (State.swap_chain (State.resize (demo_state (fun _ => true))
                                   (PhysicalSize.mk 400 300)))
              (State.surface (State.resize (demo_state (fun _ => true))
                                (PhysicalSize.mk 400 300))))
    as [[frame|e] surface] eqn:E; [|vm_compute in E; discriminate].
  exists frame, surface. split; [exact Hr|]. split; [reflexivity|].
  exact (reachable_frame_extent _ Hr frame surface E).
Defined.

(** ** The frame renderer *)

(** From every reachable state, a [render] that returns submits one
    command buffer: a render pass clearing to the background color that
    binds the render pipeline, the vertex buffer created from [VERTICES]
    at slot 0, the index buffer created from [INDICES], and at group 0 the
    diffuse bind group, whose layout is the pipeline layout's only bind
    group layout and which binds the texture view and its sampler; then it
    draws the 9 indices once. *)
Theorem render_binds_created_objects (s s' : State.t) (Hreach : reachable s)
  (Hrender : State.render s = Returned tt s') :
  let log := Device.log (State.device s') in
  exists cb view p vb ib bg layout pd tex,
    Queue.submitted (State.queue s') = Queue.submitted (State.queue s) ++ [cb] /\
    CommandBuffer.commands cb =
      [ BeginRenderPass view Clear Store clear_color;
        SetPipeline p; SetVertexBuffer 0 vb 0 0; SetIndexBuffer ib 0 0;
        SetBindGroup 0 bg []; DrawIndexed (0, 9) 0 (0, 1); EndRenderPass ] /\
    nth_error log p = Some (CreateRenderPipeline pd) /\
    nth_error log vb =
      Some (CreateBufferWithData (BufVertices VERTICES) BufferUsage_VERTEX) /\
    nth_error log ib =
      Some (CreateBufferWithData (BufIndices INDICES) BufferUsage_INDEX) /\
    nth_error log (RenderPipelineDescriptor.layout pd) =
      Some (CreatePipelineLayout [layout]) /\
    nth_error log layout =
      Some (CreateBindGroupLayout texture_bind_group_layout_entries
              (Some "texture_bind_group_layout"%string)) /\
    nth_error log bg =
      Some (CreateBindGroup layout
              [ Binding.mk 0 (TextureViewRes (Texture.view tex));
                Binding.mk 1 (SamplerRes (Texture.sampler tex)) ]
              (Some "diffuse_bind_group"%string)) /\
    nth_error log (Texture.view tex) =
      Some (CreateTextureView (Texture.texture tex)) /\
    nth_error log (Texture.sampler tex) =
      Some (CreateSampler from_image_sampler_descriptor).
Proof.
  pose proof (reachable_session_invariant s' (reach_render s s' Hreach Hrender))
    as (_ & _ & _ & _ & Hvb & Hib & Hrp & Hv & Hsm & _ & [layout (Hbgl & Hpl & Hbg)]).
  destruct (reachable_new_invariant s Hreach) as (Hn & _).
  apply render_returned in Hrender as (frame & surface & _ & Hs').
  rewrite Hs' in *; cbn in *.
  exists (render_commands s frame), (SwapChainOutput.view frame),
    (RenderPipeline.id (State.render_pipeline s)), (State.vertex_buffer s),
    (State.index_buffer s), (State.diffuse_bind_group s), layout,
    (RenderPipeline.desc (State.render_pipeline s)), (State.diffuse_texture s).
  cbn. rewrite Hn. repeat split; assumption.
Qed.

Lemma render_binds_created_objects_witness :
  exists s',
    State.render (demo_state (fun _ => true)) = Returned tt s' /\
    List.length (Queue.submitted (State.queue s')) = 2%nat.
Proof.
  destruct (State.render (demo_state (fun _ => true))) as [[] s'|msg s'] eqn:E;
    [| vm_compute in E; discriminate].
  exists s'. split; [reflexivity|].
  destruct (render_binds_created_objects _ _ (demo_state_reachable _) E)
    as (cb & _ & _ & _ & _ & _ & _ & _ & _ & Hq & _).
  rewrite Hq, length_app. reflexivity.
Defined.

(** A [render] that returns makes one acquisition attempt, creates only a
    command encoder, submits exactly one command buffer and leaves the
    session's configuration (descriptor, swap chain, size, pipeline,
    buffers, texture, bind group, index count) unchanged. *)
Theorem render_effects (s s' : State.t)
  (Hrender : State.render s = Returned tt s') :
  Surface.acquire_attempts (State.surface s') =
    S (Surface.acquire_attempts (State.surface s)) /\
  Device.log (State.device s') =
    Device.log (State.device s) ++
      [CreateCommandEncoder (Some "Render Encoder"%string)] /\
  List.length (Queue.submitted (State.queue s')) =
    S (List.length (Queue.submitted (State.queue s))) /\
  State.sc_desc s' = State.sc_desc s /\
  State.swap_chain s' = State.swap_chain s /\
  State.size s' = State.size s /\
  State.render_pipeline s' = State.render_pipeline s /\
  State.vertex_buffer s' = State.vertex_buffer s /\
  State.index_buffer s' = State.index_buffer s /\
  State.num_indices s' = State.num_indices s /\
  State.diffuse_texture s' = State.diffuse_texture s /\
  State.diffuse_bind_group s' = State.diffuse_bind_group s.
Proof.
  apply render_returned in Hrender as (frame & surface & Hg & ->).
  destruct (get_next_texture_surface (State.swap_chain s) (State.surface s))
    as (_ & _ & Ha).
  rewrite Hg in Ha. cbn in *.
  rewrite length_app, Nat.add_1_r. repeat split; assumption.
Qed.

Lemma render_effects_witness :
  exists s',
    State.render (demo_state (fun _ => true)) = Returned tt s' /\
    State.size s' = PhysicalSize.mk 800 600.
Proof.
  destruct (State.render (demo_state (fun _ => true))) as [[] s'|msg s'] eqn:E;
    [| vm_compute in E; discriminate].
  exists s'. split; [reflexivity|].
  destruct (render_effects _ _ E) as (_ & _ & _ & _ & _ & Hsz & _).
  rewrite Hsz. reflexivity.
Defined.

(** ** The event loop *)

Lemma on_window_event_state (s : State.t) (event : WindowEvent)
  (control_flow : ControlFlow) :
  fst (on_window_event s event control_flow) = s \/
  exists new_size,
    fst (on_window_event s event control_flow) = State.resize s new_size.
Proof.
  unfold on_window_event, input; cbn.
  destruct event as [sz | | d k syn | d x y | sf sz | tag]; cbn;
    try (right; eexists; reflexivity); left; try reflexivity.
  destruct (KeyboardInput.state k), (KeyboardInput.virtual_keycode k)
    as [[| |]|]; reflexivity.
Qed.

(** Every event the loop handles from a reachable state without panicking
    leads to a reachable state; the device log and the queue's submitted
    buffers are only ever extended. *)
Theorem event_loop_step_preserves_reachable (window_id : nat) (s : State.t)
  (event : Event) (control_flow : ControlFlow) (s' s'' : State.t)
  (control_flow' : ControlFlow) (Hreach : reachable s)
  (Hstep : event_loop_step window_id s event control_flow =
             Returned (s', control_flow') s'') :
  reachable s' /\ s'' = s' /\
  (exists calls, Device.log (State.device s') =
                   Device.log (State.device s) ++ calls) /\
  (exists cbs, Queue.submitted (State.queue s') =
                 Queue.submitted (State.queue s) ++ cbs).
Proof.
  assert (Hsame : reachable s /\ s = s /\
     (exists calls, Device.log (State.device s) =
                      Device.log (State.device s) ++ calls) /\
     (exists cbs, Queue.submitted (State.queue s) =
                    Queue.submitted (State.queue s) ++ cbs))
    by (repeat split; [assumption | exists []; now rewrite app_nil_r
                      | exists []; now rewrite app_nil_r]).
  destruct event as [id ev | id | |]; unfold event_loop_step in Hstep.
  - destruct (Nat.eqb id window_id); [|inversion Hstep; subst; exact Hsame].
    destruct (on_window_event s ev control_flow) as [s1 cf1] eqn:E.
    inversion Hstep; subst.
    destruct (on_window_event_state s ev control_flow) as [Hs|[sz Hs]];
      rewrite E in Hs; cbn [fst] in Hs; subst; [exact Hsame|].
    rewrite resize_unfold; cbn.
    repeat split; [rewrite <- resize_unfold; apply reach_resize; assumption
                  | eexists; reflexivity
                  | exists []; now rewrite app_nil_r].
  - unfold State.update in Hstep.
    destruct (State.render s) as [[] s1|msg s1] eqn:E; [|discriminate].
    inversion Hstep; subst.
    pose proof (render_returned _ _ E) as (frame & surface & _ & Hs1).
    split; [exact (reach_render _ _ Hreach E)|]. split; [reflexivity|].
    rewrite Hs1; cbn. split; eexists; reflexivity.
  - inversion Hstep; subst. exact Hsame.
  - inversion Hstep; subst. exact Hsame.
Qed.

Lemma event_loop_step_preserves_reachable_witness :
  exists s',
    event_loop_step 0 (demo_state (fun _ => true)) (RedrawRequested 0) Poll =
      Returned (s', Poll) s' /\
    reachable s'.
Proof.
  destruct (event_loop_step 0 (demo_state (fun _ => true)) (RedrawRequested 0)
              Poll) as [[s' cf] s''|msg s''] eqn:E;
    [| vm_compute in E; discriminate].
  destruct (event_loop_step_preserves_reachable _ _ _ _ _ _ _
              (demo_state_reachable _) E) as (Hr & Heq & _).
  subst s''.
  assert (Hcf : cf = Poll) by (vm_compute in E; congruence).
  subst cf. exists s'. split; [reflexivity | exact Hr].
Defined.

(** How [on_window_event] sets the control flow. *)
Lemma on_window_event_control_flow (s : State.t) (event : WindowEvent)
  (control_flow : ControlFlow) :
  let control_flow' := snd (on_window_event s event control_flow) in
  (control_flow' = Exit <->
     event = CloseRequested \/
     (exists device_id input is_synthetic,
        event = KeyboardInputEv device_id input is_synthetic /\
        KeyboardInput.state input = Pressed /\
        KeyboardInput.virtual_keycode input = Some Escape) \/
     control_flow = Exit) /\
  (control_flow' = control_flow \/ control_flow' = Exit).
Proof.
  cbv zeta.
  unfold on_window_event, input; cbn.
  destruct event as [sz | | d k syn | d x y | sf sz | tag]; cbn.
  - split; [|left; reflexivity]. split; [intro H; right; right; exact H|].
    intros [H|[(? & ? & ? & H & _)|H]]; [discriminate|discriminate|exact H].
  - split; [|right; reflexivity]. split; [intro; left; reflexivity|reflexivity].
  - destruct (KeyboardInput.state k) eqn:Hst,
      (KeyboardInput.virtual_keycode k) as [[| |]|] eqn:Hvk; cbn;
      (split; [split|]);
      try (intro; right; left; exists d, k, syn; repeat split; assumption);
      try (intro; reflexivity); try (left; reflexivity); try (right; reflexivity);
      try (intro H; right; right; exact H);
      try (intros [H|[(? & ? & ? & H & H1 & H2)|H]];
           [discriminate | inversion H; subst; congruence | exact H]).
  - split; [|left; reflexivity]. split; [intro H; right; right; exact H|].
    intros [H|[(? & ? & ? & H & _)|H]]; [discriminate|discriminate|exact H].
  - split; [|left; reflexivity]. split; [intro H; right; right; exact H|].
    intros [H|[(? & ? & ? & H & _)|H]]; [discriminate|discriminate|exact H].
  - split; [|left; reflexivity]. split; [intro H; right; right; exact H|].
    intros [H|[(? & ? & ? & H & _)|H]]; [discriminate|discriminate|exact H].
Qed.

(** A step of the event loop on a window event of the program's window
    that returns sets the control flow to [Exit] exactly when the event is
    a close request or a press of Escape, or when it was [Exit] already;
    otherwise it leaves the control flow as it was. *)
Theorem window_event_exit_iff (window_id : nat) (s s' s'' : State.t)
  (event : WindowEvent) (control_flow control_flow' : ControlFlow)
  (Hstep : event_loop_step window_id s (WindowEventEv window_id event)
             control_flow = Returned (s', control_flow') s'') :
  (control_flow' = Exit <->
     event = CloseRequested \/
     (exists device_id input is_synthetic,
        event = KeyboardInputEv device_id input is_synthetic /\
        KeyboardInput.state input = Pressed /\
        KeyboardInput.virtual_keycode input = Some Escape) \/
     control_flow = Exit) /\
  (control_flow' = control_flow \/ control_flow' = Exit).
Proof.
  pose proof (on_window_event_control_flow s event control_flow) as H.
  unfold event_loop_step in Hstep. rewrite Nat.eqb_refl in Hstep.
  destruct (on_window_event s event control_flow) as [s1 cf1].
  inversion Hstep; subst. exact H.
Qed.

Lemma window_event_exit_iff_witness :
  let s := demo_state (fun _ => true) in
  event_loop_step 0 s (WindowEventEv 0 CloseRequested) Poll =
    Returned (s, Exit) s /\
  (Exit = Exit <->
     CloseRequested = CloseRequested \/
     (exists device_id input is_synthetic,
        CloseRequested = KeyboardInputEv device_id input is_synthetic /\
        KeyboardInput.state input = Pressed /\
        KeyboardInput.virtual_keycode input = Some Escape) \/
     Poll = Exit) /\
  (Exit = Poll \/ Exit = Exit).
Proof.
  cbv zeta.
  assert (E : event_loop_step 0 (demo_state (fun _ => true))
                (WindowEventEv 0 CloseRequested) Poll =
              Returned (demo_state (fun _ => true), Exit)
                (demo_state (fun _ => true))) by reflexivity.
  split; [exact E|].
  exact (window_event_exit_iff 0 _ _ _ CloseRequested Poll Exit E).
Defined.

(** A window event of the program's window changes the state only through
    [resize]: [Resized] and [ScaleFactorChanged] resize to the size they
    carry, every other window event leaves the state as it is. *)
Theorem window_event_state (window_id : nat) (s : State.t)
  (event : WindowEvent) (control_flow : ControlFlow) :
  match event_loop_step window_id s (WindowEventEv window_id event)
          control_flow with
  | Returned (s', _) _ =>
      match event with
      | Resized new_size => s' = State.resize s new_size
      | ScaleFactorChanged _ new_inner_size =>
          s' = State.resize s new_inner_size
      | _ => s' = s
      end
  | Panicked _ _ => False
  end.
Proof.
  cbn [event_loop_step]. rewrite Nat.eqb_refl.
  unfold on_window_event, input. cbn [negb].
  destruct event as [sz | | d k syn | d x y | sf sz | tag]; try reflexivity.
  cbn. destruct (KeyboardInput.state k), (KeyboardInput.virtual_keycode k)
    as [[| |]|]; reflexivity.
Qed.

(** Events of another window are ignored: state and control flow are
    unchanged. *)
Theorem other_window_event_ignored (window_id id : nat) (s : State.t)
  (event : WindowEvent) (control_flow : ControlFlow)
  (Hid : id <> window_id) :
  event_loop_step window_id s (WindowEventEv id event) control_flow =
    Returned (s, control_flow) s.
Proof.
  cbn [event_loop_step]. apply Nat.eqb_neq in Hid. now rewrite Hid.
Qed.

Lemma other_window_event_ignored_witness :
  (1 <> 0)%nat /\
  event_loop_step 0 (demo_state (fun _ => true)) (WindowEventEv 1 CloseRequested)
    Poll = Returned (demo_state (fun _ => true), Poll) (demo_state (fun _ => true)).
Proof.
  split; [discriminate|].
  apply other_window_event_ignored. discriminate.
Defined.

(** A redraw request renders one frame: when the surface presents an
    image at the next attempt, the loop goes on with the control flow
    unchanged and one more command buffer submitted; otherwise the loop
    panics with the acquisition timeout. *)
Theorem redraw_renders_or_panics (window_id id : nat) (s : State.t)
  (control_flow : ControlFlow) :
  let ok := Surface.presentable (State.surface s)
              (Surface.acquire_attempts (State.surface s)) in
  match event_loop_step window_id s (RedrawRequested id) control_flow with
  | Returned (s', control_flow') _ =>
      ok = true /\ control_flow' = control_flow /\
      List.length (Queue.submitted (State.queue s')) =
        S (List.length (Queue.submitted (State.queue s)))
  | Panicked msg _ => ok = false /\ msg = State.timeout_msg
  end.
Proof.
  cbn [event_loop_step]. unfold State.update.
  destruct (State.render s) as [[] s'|msg s'] eqn:E.
  - pose proof (render_returned _ _ E) as (frame & surface & Hg & Hs').
    repeat split.
    + unfold get_next_texture in Hg. cbn in Hg.
      destruct (Surface.presentable _ _); [reflexivity | discriminate].
    + rewrite Hs'; cbn. rewrite length_app. cbn. lia.
  - unfold State.render, get_next_texture in E.
    destruct s as [[sid p n]]; cbn in *.
    destruct (p n); cbn in E; inversion E; subst. split; reflexivity.
Qed.

(** ** Startup *)



(** A successful [State::new] configures the swap chain for the window's
    size ([OUTPUT_ATTACHMENT], [Bgra8UnormSrgb], [Fifo]), makes no
    acquisition attempt on the surface, and submits exactly one command
    buffer, which copies the decoded image's bytes, from a buffer created
    with them, into the state's diffuse texture at the image's extent. *)
Theorem new_submits_texture_upload
  (load_from_memory : list Byte.byte -> result DynamicImage ImageError)
  (bytes : list Byte.byte) (size : PhysicalSize.t) (surface : Surface.t)
  (adapter : nat) (device : Device.t) (queue : Queue.t) (s : State.t)
  (Hnew : State.new load_from_memory bytes size surface adapter device queue
            = Returned s tt) :
  exists buf cb b,
    load_from_memory bytes = Ok (ImageRgba8 buf) /\
    State.sc_desc s =
      SwapChainDescriptor.mk TextureUsage_OUTPUT_ATTACHMENT Bgra8UnormSrgb
        (PhysicalSize.width size) (PhysicalSize.height size) Fifo /\
    State.surface s = surface /\
    Queue.submitted (State.queue s) = Queue.submitted queue ++ [cb] /\
    CommandBuffer.commands cb =
      [CopyBufferToTexture
         (BufferCopyView.mk b 0 (u32_mul 4 (ImageBuffer.width buf))
            (ImageBuffer.height buf))
         (TextureCopyView.mk (Texture.texture (State.diffuse_texture s))
            0 0 Origin3d_ZERO)
         (Extent3d.mk (ImageBuffer.width buf) (ImageBuffer.height buf) 1)] /\
    nth_error (Device.log (State.device s)) b =
      Some (CreateBufferWithData (BufBytes (ImageBuffer.raw buf))
              BufferUsage_COPY_SRC) /\
    nth_error (Device.log (State.device s))
      (Texture.texture (State.diffuse_texture s)) =
      Some (CreateTexture (from_image_texture_descriptor
              (Extent3d.mk (ImageBuffer.width buf) (ImageBuffer.height buf) 1))).
Proof.
  apply new_shape in Hnew as (buf & cb & Hl & Hsf & _ & Hsc & _ & Htex & _
                              & _ & _ & _ & _ & Hq & Hcmd & Hlog).
  exists buf, cb, (List.length (Device.log device) + 2)%nat.
  rewrite Hlog, Htex, Hq. cbn.
  repeat split; auto.
  - rewrite (nth_error_app_length_plus _ _ 2). reflexivity.
  - rewrite (nth_error_app_length_plus _ _ 1). reflexivity.
Qed.

Lemma new_submits_texture_upload_witness :
  exists buf cb b,
    decode_to (ImageRgba8 demo_rgba8) [] = Ok (ImageRgba8 buf) /\
    State.sc_desc (demo_state (fun _ => true)) =
      SwapChainDescriptor.mk TextureUsage_OUTPUT_ATTACHMENT Bgra8UnormSrgb
        800 600 Fifo /\
    State.surface (demo_state (fun _ => true)) = demo_surface (fun _ => true) /\
    Queue.submitted (State.queue (demo_state (fun _ => true))) = [] ++ [cb] /\
    CommandBuffer.commands cb =
      [CopyBufferToTexture
         (BufferCopyView.mk b 0 (u32_mul 4 (ImageBuffer.width buf))
            (ImageBuffer.height buf))
         (TextureCopyView.mk
            (Texture.texture (State.diffuse_texture (demo_state (fun _ => true))))
            0 0 Origin3d_ZERO)
         (Extent3d.mk (ImageBuffer.width buf) (ImageBuffer.height buf) 1)] /\
    nth_error (Device.log (State.device (demo_state (fun _ => true)))) b =
      Some (CreateBufferWithData (BufBytes (ImageBuffer.raw buf))
              BufferUsage_COPY_SRC) /\
    nth_error (Device.log (State.device (demo_state (fun _ => true))))
      (Texture.texture (State.diffuse_texture (demo_state (fun _ => true)))) =
      Some (CreateTexture (from_image_texture_descriptor
              (Extent3d.mk (ImageBuffer.width buf) (ImageBuffer.height buf) 1))).
Proof.
  exact (new_submits_texture_upload (decode_to (ImageRgba8 demo_rgba8)) []
           (PhysicalSize.mk 800 600) (demo_surface (fun _ => true)) 0
           (Device.mk []) (Queue.mk []) (demo_state (fun _ => true))
           (demo_new_returns (fun _ => true))).
Defined.

(** ** Texture loading *)

(** [Texture::from_image] never returns an error value.  In both builds
    it panics at [as_rgba8().unwrap()] for an image that is not RGBA8,
    before creating any object on the device; a debug build also panics,
    with the overflow message, for an RGBA8 image of width [W] with
    [4 * W >= 2^32].  In every other case it returns the texture and its
    upload command buffer. *)
Theorem from_image_outcomes (p : Profile) (device : Device.t)
  (img : DynamicImage) :
  match from_image_in p device img with
  | Returned (Ok _) _ =>
      exists buf, img = ImageRgba8 buf /\
        (p = Release \/ 4 * ImageBuffer.width buf < u32_modulus)
  | Returned (Err _) _ => False
  | Panicked msg device' =>
      (as_rgba8 img = None /\ msg = option_unwrap_msg /\ device' = device) \/
      (p = Debug /\ msg = mul_overflow_msg /\
       exists buf, img = ImageRgba8 buf /\
         u32_modulus <= 4 * ImageBuffer.width buf)
  end.
Proof.
  unfold from_image_in.
  destruct img as [b|b|b|b|b|b|b|b|b|b]; cbn -[u32_mul Z.ltb Z.mul u32_modulus];
    try (left; repeat split; reflexivity).
  destruct p; cbn -[u32_mul Z.ltb Z.mul u32_modulus].
  - destruct (4 * ImageBuffer.width b <? u32_modulus) eqn:Hlt.
    + exists b. split; [reflexivity|]. right. apply Z.ltb_lt. exact Hlt.
    + right. split; [reflexivity|]. split; [reflexivity|].
      exists b. split; [reflexivity|]. apply Z.ltb_ge. exact Hlt.
  - exists b. split; [reflexivity|]. left. reflexivity.
Qed.

(** For a well-formed RGBA8 image of width [W] and height [H] with
    [4 * W < 2^32], [from_image] in either build creates a texture whose
    descriptor has extent [(W, H, 1)], records in the command buffer it
    returns exactly one buffer-to-texture copy, from the staging buffer
    with row pitch [4 * W] into that texture with that extent, and only
    creates objects on the device (the command buffer is not submitted). *)
Theorem from_image_rgba8_upload (p : Profile) (device : Device.t)
  (buf : ImageBuffer.t)
  (Hwf : rgba8_well_formed buf)
  (Hpitch : 4 * ImageBuffer.width buf < u32_modulus) :
  let W := ImageBuffer.width buf in
  let H := ImageBuffer.height buf in
  let n := List.length (Device.log device) in
  let size := Extent3d.mk W H 1 in
  exists tex cb device',
    from_image_in p device (ImageRgba8 buf) = Returned (Ok (tex, cb)) device' /\
    Texture.texture tex = n /\
    TextureDescriptor.size (from_image_texture_descriptor size) = size /\
    CommandBuffer.commands cb =
      [CopyBufferToTexture (BufferCopyView.mk (S n) 0 (4 * W) H)
         (TextureCopyView.mk n 0 0 Origin3d_ZERO) size] /\
    Device.log device' =
      Device.log device ++
        [CreateTexture (from_image_texture_descriptor size);
         CreateBufferWithData (BufBytes (ImageBuffer.raw buf))
           BufferUsage_COPY_SRC;
         CreateCommandEncoder (Some "texture_buffer_copy_encoder"%string);
         CreateTextureView n;
         CreateSampler from_image_sampler_descriptor].
Proof.
  destruct Hwf as ([HW _] & _).
  assert (Hm : u32_mul_in p 4 (ImageBuffer.width buf) =
               Some (4 * ImageBuffer.width buf)).
  { destruct p; cbn -[Z.mul u32_modulus].
    - apply Z.ltb_lt in Hpitch. rewrite Hpitch. reflexivity.
    - unfold u32_mul. rewrite Z.mod_small by lia. reflexivity. }
  cbv zeta. unfold from_image_in. cbn -[u32_mul_in Z.mul]. rewrite Hm.
  do 3 eexists. split; [reflexivity|].
  repeat split; cbn -[Z.mul].
  - now rewrite length_app, Nat.add_1_r.
  - rewrite <- !app_assoc. reflexivity.
Qed.

Lemma from_image_rgba8_upload_witness :
  rgba8_well_formed demo_rgba8 /\
  4 * ImageBuffer.width demo_rgba8 < u32_modulus /\
  exists tex cb device',
    from_image_in Debug (Device.mk []) (ImageRgba8 demo_rgba8) =
      Returned (Ok (tex, cb)) device' /\
    CommandBuffer.commands cb =
      [CopyBufferToTexture (BufferCopyView.mk 1 0 8 1)
         (TextureCopyView.mk 0 0 0 Origin3d_ZERO) (Extent3d.mk 2 1 1)].
Proof.
  assert (Hwf : rgba8_well_formed demo_rgba8)
    by (unfold rgba8_well_formed, is_u32, u32_modulus; cbn; lia).
  assert (Hp : 4 * ImageBuffer.width demo_rgba8 < u32_modulus)
    by (unfold u32_modulus; cbn; lia).
  split; [exact Hwf|]. split; [exact Hp|].
  destruct (from_image_rgba8_upload Debug (Device.mk []) demo_rgba8 Hwf Hp)
    as (tex & cb & d & E & _ & _ & Hc & _).
  exists tex, cb, d. split; [exact E|]. exact Hc.
Defined.

(** ** Texture binding *)

(** In every reachable state the diffuse bind group binds, at binding 0,
    a view of a texture created with the sRGB normalized format
    [Rgba8UnormSrgb], while the layout it was created with declares
    binding 0 as a sampled 2D texture of component type [Uint]. *)
Theorem reachable_texture_binding_component_type (s : State.t)
  (Hreach : reachable s) :
  let log := Device.log (State.device s) in
  exists layout view texture d,
    nth_error log (State.diffuse_bind_group s) =
      Some (CreateBindGroup layout
              [ Binding.mk 0 (TextureViewRes view);
                Binding.mk 1 (SamplerRes (Texture.sampler
                                            (State.diffuse_texture s))) ]
              (Some "diffuse_bind_group"%string)) /\
    nth_error log view = Some (CreateTextureView texture) /\
    nth_error log texture = Some (CreateTexture d) /\
    TextureDescriptor.format d = Rgba8UnormSrgb /\
    (exists entries label,
       nth_error log layout = Some (CreateBindGroupLayout entries label) /\
       In (BindGroupLayoutEntry.mk 0 ShaderStage_FRAGMENT
             (SampledTexture false ViewD2 CTUint)) entries).
Proof.
  apply reachable_session_invariant in Hreach
    as (_ & _ & _ & _ & _ & _ & _ & Hview & _ & [W [H Htex]] & Hbg).
  destruct Hbg as (layout & Hlayout & _ & Hbg).
  cbv zeta.
  exists layout, (Texture.view (State.diffuse_texture s)),
    (Texture.texture (State.diffuse_texture s)),
    (from_image_texture_descriptor (Extent3d.mk W H 1)).
  repeat split; auto.
  exists texture_bind_group_layout_entries,
    (Some "texture_bind_group_layout"%string).
  split; [exact Hlayout | left; reflexivity].
Qed.

Lemma reachable_texture_binding_component_type_witness :
  reachable (demo_state (fun _ => true)) /\
  let s := demo_state (fun _ => true) in
  let log := Device.log (State.device s) in
  exists layout view texture d,
    nth_error log (State.diffuse_bind_group s) =
      Some (CreateBindGroup layout
              [ Binding.mk 0 (TextureViewRes view);
                Binding.mk 1 (SamplerRes (Texture.sampler
                                            (State.diffuse_texture s))) ]
              (Some "diffuse_bind_group"%string)) /\
    nth_error log view = Some (CreateTextureView texture) /\
    nth_error log texture = Some (CreateTexture d) /\
    TextureDescriptor.format d = Rgba8UnormSrgb /\
    (exists entries label,
       nth_error log layout = Some (CreateBindGroupLayout entries label) /\
       In (BindGroupLayoutEntry.mk 0 ShaderStage_FRAGMENT
             (SampledTexture false ViewD2 CTUint)) entries).
Proof.
  split.
  - apply demo_state_reachable.
  - exact (reachable_texture_binding_component_type _
             (demo_state_reachable (fun _ => true))).
Defined.
